(** * turbiniactl: the command line front end of Turbinia

    A shallow embedding of [turbinia/turbiniactl.py]: the helper [csv_list]
    and the body of [main] from the point where [parser.parse_args()] has
    returned the [args] namespace.

    Conventions of the embedding.
    - Python [str] is [string]; [None]-able attributes are [option]; Python
      [int] is [Z]; truthiness is written out ([truthy], [nonempty]).
    - The [recipe] dict of a request is a [gmap string (list string)].
    - Everything [main] does to the outside world (logger calls, calls into
      [turbinia.client], [turbinia.evidence], [turbinia.message], [config],
      [print]) is recorded, in program order, as a list of [Event]s.
      Collaborator calls are taken to return; what they return is read from
      the environment [Env] where the control flow of [main] depends on it.
    - [sys.exit(n)] and an uncaught exception end the run: the monad [M]
      carries either a value to continue with or the final [Outcome]. *)

From Stdlib Require Import ZArith Bool Ascii String.
From stdpp Require Import base option list strings gmap.

Open Scope string_scope.
Open Scope Z_scope.

(** ** Python string helpers *)

Module Py.

(** [s.split(sep)] for a one-character separator. *)
Fixpoint split (sep : ascii) (s : string) : list string :=
  match s with
  | EmptyString => [EmptyString]
  | String c rest =>
      if Ascii.eqb c sep then EmptyString :: split sep rest
      else match split sep rest with
           | [] => [String c EmptyString]
           | piece :: pieces => String c piece :: pieces
           end
  end.

(** [sep.join(l)]. *)
Fixpoint join (sep : string) (l : list string) : string :=
  match l with
  | [] => EmptyString
  | [x] => x
  | x :: rest => x +:+ sep +:+ join sep rest
  end.

(** Truthiness of a [str] that may be [None]. *)
Definition truthy (o : option string) : bool :=
  match o with
  | Some (String _ _) => true
  | _ => false
  end.

(** Truthiness of an object that may be [None] and is truthy otherwise. *)
Definition not_none {A} (o : option A) : bool :=
  match o with Some _ => true | None => false end.

(** Truthiness of a list. *)
Definition nonempty {A} (l : list A) : bool :=
  match l with [] => false | _ :: _ => true end.

(** [x if x else d], for a [str] that may be [None] and a [str] default. *)
Definition or_else (o : option string) (d : string) : string :=
  match o with
  | Some (String c r) => String c r
  | _ => d
  end.

Definition startswith_char (c : ascii) (s : string) : bool :=
  match s with
  | String d _ => Ascii.eqb c d
  | EmptyString => false
  end.

Fixpoint endswith_char (c : ascii) (s : string) : bool :=
  match s with
  | EmptyString => false
  | String d EmptyString => Ascii.eqb c d
  | String _ r => endswith_char c r
  end.

Definition lower_ascii (c : ascii) : ascii :=
  let n := nat_of_ascii c in
  if (Nat.leb 65 n && Nat.leb n 90)%bool then ascii_of_nat (n + 32) else c.

(** [s.lower()] on the ASCII range. *)
Fixpoint lower (s : string) : string :=
  match s with
  | EmptyString => EmptyString
  | String c r => String (lower_ascii c) (lower r)
  end.

Fixpoint contains_char (c : ascii) (s : string) : bool :=
  match s with
  | EmptyString => false
  | String d r => (Ascii.eqb c d || contains_char c r)%bool
  end.

(** [s.startswith(prefix)] *)
Fixpoint startswith (s prefix : string) {struct prefix} : bool :=
  match prefix, s with
  | EmptyString, _ => true
  | String _ _, EmptyString => false
  | String a p, String b r => (Ascii.eqb a b && startswith r p)%bool
  end.

(** [needle in hay] *)
Fixpoint contains (needle hay : string) : bool :=
  (startswith hay needle
   || match hay with
      | EmptyString => false
      | String _ r => contains needle r
      end)%bool.

End Py.

(** ** [csv_list] *)

Definition comma : ascii := "," % char.

(** [def csv_list(string): return string.split(',')] *)
Definition csv_list (s : string) : list string := Py.split comma s.

(** What "the comma-split list of [s]" means, stated without the code: the
    pieces contain no comma and, joined with commas, give [s] back. *)
Definition is_comma_split (s : string) (l : list string) : Prop :=
  Forall (fun piece => Py.contains_char comma piece = false) l
  /\ l <> [] /\ Py.join "," l = s.

(** ** [os.path] on a POSIX host

    [os.path.abspath] is Python's [posixpath.abspath]; the current working
    directory it reads is an argument here. *)

Module PosixPath.

Definition slash : ascii := "/" % char.

Definition isabs (s : string) : bool := Py.startswith_char slash s.

(** [posixpath.join(a, b)] *)
Definition join (a b : string) : string :=
  if Py.startswith_char slash b then b
  else match a with
       | EmptyString => b
       | _ => if Py.endswith_char slash a then a +:+ b else a +:+ "/" +:+ b
       end.

(** 0, 1 or 2: POSIX keeps exactly two leading slashes apart. *)
Definition initial_slashes (path : string) : nat :=
  match path with
  | String "/" (String "/" (String "/" _)) => 1
  | String "/" (String "/" _) => 2
  | String "/" _ => 1
  | _ => 0
  end%nat.

(** One turn of the loop over [comps] in [normpath]. *)
Definition norm_step (initial : nat) (new_comps : list string) (comp : string)
  : list string :=
  if (String.eqb comp EmptyString || String.eqb comp ".")%bool then new_comps
  else if (negb (String.eqb comp "..")
           || (Nat.eqb initial 0 && negb (Py.nonempty new_comps))
           || (Py.nonempty new_comps
               && match last new_comps with
                  | Some l => String.eqb l ".."
                  | None => false
                  end))%bool
       then (new_comps ++ [comp])%list
       else if Py.nonempty new_comps then removelast new_comps
       else new_comps.

(** ['/' * n] *)
Fixpoint slashes (n : nat) : string :=
  match n with O => EmptyString | S k => String slash (slashes k) end.

Definition normpath (path : string) : string :=
  match path with
  | EmptyString => "."
  | _ =>
      let initial := initial_slashes path in
      let comps := Py.split slash path in
      let new_comps := fold_left (norm_step initial) comps [] in
      let path := Py.join "/" new_comps in
      let path := if Nat.eqb initial 0 then path else slashes initial +:+ path in
      match path with EmptyString => "." | _ => path end
  end.

Definition abspath (cwd path : string) : string :=
  if isabs path then normpath path else normpath (join cwd path).

End PosixPath.

(** ** Data model *)

(** The evidence classes of [turbinia.evidence], with the keyword arguments
    [main] passes to each constructor. *)
Inductive Evidence : Type :=
| RawDisk (name local_path : string) (mount_partition : Z)
    (source : option string)
| APFSEncryptedDisk (name local_path : string)
    (recovery_key password source : option string)
| BitlockerDisk (name local_path : string)
    (recovery_key password source : option string)
| Directory (name local_path : string) (source : option string)
| GoogleCloudDisk (name disk_name project : string) (mount_partition : Z)
    (zone : string) (source : option string)
| GoogleCloudDiskRawEmbedded (name disk_name embedded_path : string)
    (mount_partition : Z) (project zone : string) (source : option string)
| RawMemory (name local_path profile : string) (module_list : list string).

Module evidence.

Definition name (e : Evidence) : string :=
  match e with
  | RawDisk n _ _ _ | APFSEncryptedDisk n _ _ _ _ | BitlockerDisk n _ _ _ _
  | Directory n _ _ | GoogleCloudDisk n _ _ _ _ _
  | GoogleCloudDiskRawEmbedded n _ _ _ _ _ _ | RawMemory n _ _ _ => n
  end.

Definition local_path (e : Evidence) : option string :=
  match e with
  | RawDisk _ p _ _ | APFSEncryptedDisk _ p _ _ _ | BitlockerDisk _ p _ _ _
  | Directory _ p _ | RawMemory _ p _ _ => Some p
  | GoogleCloudDisk _ _ _ _ _ _ | GoogleCloudDiskRawEmbedded _ _ _ _ _ _ _ =>
      None
  end.

Definition disk_name (e : Evidence) : option string :=
  match e with
  | GoogleCloudDisk _ d _ _ _ _ | GoogleCloudDiskRawEmbedded _ d _ _ _ _ _ =>
      Some d
  | _ => None
  end.

(** Only the cloud variants have a [project] attribute. *)
Definition project (e : Evidence) : option string :=
  match e with
  | GoogleCloudDisk _ _ p _ _ _ | GoogleCloudDiskRawEmbedded _ _ _ _ p _ _ =>
      Some p
  | _ => None
  end.

(** Modelled from the spec: the class attribute [cloud_only] of
    [turbinia.evidence], which is not among the sources: "true for the two
    Google Cloud variants". *)
Definition cloud_only (e : Evidence) : bool :=
  match e with
  | GoogleCloudDisk _ _ _ _ _ _ | GoogleCloudDiskRawEmbedded _ _ _ _ _ _ _ =>
      true
  | _ => false
  end.

(** Modelled from the spec: the attribute [type] of [turbinia.evidence],
    which is not among the sources; the variant's name. It only appears in
    log messages. *)
Definition type (e : Evidence) : string :=
  match e with
  | RawDisk _ _ _ _ => "RawDisk"
  | APFSEncryptedDisk _ _ _ _ _ => "APFSEncryptedDisk"
  | BitlockerDisk _ _ _ _ _ => "BitlockerDisk"
  | Directory _ _ _ => "Directory"
  | GoogleCloudDisk _ _ _ _ _ _ => "GoogleCloudDisk"
  | GoogleCloudDiskRawEmbedded _ _ _ _ _ _ _ => "GoogleCloudDiskRawEmbedded"
  | RawMemory _ _ _ _ => "RawMemory"
  end.

End evidence.

(** The subcommand chosen on the command line with the attributes its
    subparser adds to the namespace. [CmdNone] is [args.command is None]:
    no subcommand was given. *)
Inductive Command : Type :=
| CmdRawDisk (local_path : string) (mount_partition : Z)
    (source name : option string)
| CmdApfs (local_path : string)
    (recovery_key password source name : option string)
| CmdBitlocker (local_path : string)
    (recovery_key password source name : option string)
| CmdGoogleCloudDisk (disk_name project : string) (mount_partition : Z)
    (zone : string) (source name : option string)
| CmdGoogleCloudDiskEmbedded (embedded_path disk_name project : string)
    (mount_partition : Z) (zone : string) (source name : option string)
| CmdRawMemory (local_path profile : string) (name : option string)
    (module_list : list string)
| CmdDirectory (local_path : string) (source name : option string)
| CmdListJobs
| CmdPsqWorker (single_threaded : bool)
| CmdCeleryWorker
| CmdStatus (close_tasks : bool) (days_history : Z) (force : bool)
    (priority_filter : Z) (full_report : bool) (task_id user : option string)
| CmdServer
| CmdNone.

(** The namespace returned by [parser.parse_args()]. The [status] subparser
    stores its [--request_id] in the same attribute as the global option. *)
Module args.
Record t : Type := {
  quiet : bool;
  verbose : bool;
  debug : bool;
  all_fields : bool;
  force_evidence : bool;
  output_dir : option string;
  log_file : option string;
  request_id : option string;
  run_local : bool;
  server : bool;
  dump_json : bool;
  filter_patterns_file : option string;
  jobs_whitelist : list string;
  jobs_blacklist : list string;
  poll_interval : Z;
  task : option string;
  wait : bool;
  command : Command
}.
End args.

(** [turbinia.message.TurbiniaRequest] *)
Module request.
Record t : Type := {
  request_id : string;
  requester : string;
  evidence : list Evidence;
  recipe : gmap string (list string)
}.
End request.

(** What [open(f).read().splitlines()] does. *)
Inductive FileRead : Type :=
| Lines (lines : list string)
| IOError (e : string).

(** The values [main] reads from its environment: the [config] module once
    [config.LoadConfig()] has run, the file system, [getpass.getuser()],
    the package version and the identifier a new request is given when the
    caller supplies none. *)
Module config.
Record t : Type := {
  TASK_MANAGER : string;
  SHARED_FILESYSTEM : bool;
  TURBINIA_PROJECT : string;
  TURBINIA_REGION : string;
  INSTANCE_ID : string;
  os_path_exists : string -> bool;
  open_read_splitlines : string -> FileRead;
  os_getcwd : string;
  getpass_getuser : string;
  version : string;
  new_request_id : string
}.
End config.

(** ** Observable behaviour *)

Inductive Level : Type := DEBUG | INFO | WARNING | ERROR.

(** The messages [main] hands to the logger, with their format arguments. *)
Inductive Msg : Type :=
| MsgVersion (v : string)
| MsgFilterConflict
| MsgFilterFileMissing
| MsgCannotOpen (file err : string)
| MsgRunLocalWithServerOrWorker
| MsgRunLocalNeedsTask
| MsgNoKeyNorPassword
| MsgCloseTasksNeedsSelector
| MsgWaitNeedsRequestId
| MsgAvailableJobs
| MsgCloudOnlyOnSharedFilesystem (evidence_type : string)
| MsgNotCloudCompatible (evidence_type : string)
| MsgProjectDiffers (turbinia_project evidence_project : string)
    (suggest_force : bool)
| MsgCreatingRequest (request_id evidence_name : string)
| MsgStatusHint (request_id : string)
| MsgRunLocalNotSending
| MsgWaiting (request_id : string)
| MsgEvidenceRequired
| MsgRunLocalCloudOnly
| MsgTaskResult (task : option string)
| MsgDone.

Definition dquote : ascii := ascii_of_nat 34.

(** The text of each message. *)
Definition render (m : Msg) : string :=
  match m with
  | MsgVersion v => "Turbinia version: " +:+ v
  | MsgFilterConflict =>
      "A Job filter whitelist and blacklist cannot be specified at the same "
      +:+ "time"
  | MsgFilterFileMissing => "Filter patterns file {0:s} does not exist."
  | MsgCannotOpen f e => "Cannot open file " +:+ f +:+ " [" +:+ e +:+ "]"
  | MsgRunLocalWithServerOrWorker =>
      "--run_local flag is not compatible with server/worker flags"
  | MsgRunLocalNeedsTask => "--run_local flag requires --task flag"
  | MsgNoKeyNorPassword => "Neither recovery key nor password is specified."
  | MsgCloseTasksNeedsSelector =>
      "--close_tasks (-c) requires --user, --request_id, or/and --task_id"
  | MsgWaitNeedsRequestId =>
      "--wait requires --request_id, which is not specified. "
      +:+ "turbiniactl will exit without waiting."
  | MsgAvailableJobs => "Available Jobs:"
  | MsgCloudOnlyOnSharedFilesystem ty =>
      "The evidence type " +:+ ty +:+ " is Cloud only, and this instance of "
      +:+ "Turbinia is not a cloud instance."
  | MsgNotCloudCompatible ty =>
      "The evidence type " +:+ ty +:+ " cannot run on Cloud instances of "
      +:+ "Turbinia. Consider wrapping it in a "
      +:+ "GoogleCloudDiskRawEmbedded or other Cloud compatible "
      +:+ "object"
  | MsgProjectDiffers tp ep suggest_force =>
      "Turbinia project " +:+ tp +:+ " is different from evidence project "
      +:+ ep +:+ ". "
      +:+ "This processing request will fail unless the Turbinia service "
      +:+ "account has permissions to this project."
      +:+ (if suggest_force
           then " Use --force_evidence if you are sure you want to do this."
           else EmptyString)
  | MsgCreatingRequest r n =>
      "Creating request " +:+ r +:+ " with evidence " +:+ n
  | MsgStatusHint r =>
      "Run command " +:+ String dquote ("turbiniactl status -r " +:+ r)
      +:+ String dquote
            " to see the status of this request and associated tasks"
  | MsgRunLocalNotSending =>
      "--run_local specified so not sending request to server"
  | MsgWaiting r => "Waiting for request " +:+ r +:+ " to complete"
  | MsgEvidenceRequired => "Evidence must be specified if using --run_local"
  | MsgRunLocalCloudOnly =>
      "--run_local cannot be used with Cloud only Evidence types"
  | MsgTaskResult _ => "Task execution result: "
  | MsgDone => "Done."
  end.

(** The client object [main] creates. *)
Inductive Client : Type :=
| TurbiniaCeleryClient
| TurbiniaClient (run_local : bool).

(** Methods of the client that [main] calls, with their arguments. *)
Inductive ClientCall : Type :=
| close_tasks (instance project region : string)
    (request_id task_id user : option string) (requester : string)
| wait_for_request (instance project region : string)
    (request_id user : option string) (poll_interval : Z)
| format_task_status (instance project region : string) (days : option Z)
    (task_id request_id user : option string) (all_fields : bool)
    (full_report : option bool) (priority_filter : option Z)
| list_jobs
| send_request (r : request.t)
| run_local_task (task : option string) (r : option request.t).

Inductive Printed : Type :=
| ResultOf (c : ClientCall)
| Json (r : request.t).

Inductive Event : Type :=
| SetLevel (l : Level)
| Log (l : Level) (m : Msg)
| LoadConfig
| NewClient (c : Client)
| SetOutputDir (d : string)
| SetLogFile (f : string)
| NewEvidence (e : Evidence)
| LoggerSetup
| PsqWorkerStart
| CeleryWorkerStart
| NewServer (jobs : option (list string * list string))
| ServerAddEvidence (e : Evidence)
| ServerStart
| Call (c : ClientCall)
| NewRequest (r : request.t)
| Print (p : Printed).

Inductive PyExc : Type := TypeError | AttributeError.

Inductive Outcome : Type :=
| Exit (code : Z)
| Uncaught (e : PyExc).

(** ** The monad of [main]: a trace, then a value or the end of the run *)

Inductive Step (A : Type) : Type :=
| Next (a : A)
| Stop (o : Outcome).
Arguments Next {A} a.
Arguments Stop {A} o.

Definition M (A : Type) : Type := list Event * Step A.

Definition ret {A} (a : A) : M A := ([], Next a).

Definition bind {A B} (m : M A) (f : A -> M B) : M B :=
  match m with
  | (t, Next a) => let '(t', r) := f a in ((t ++ t')%list, r)
  | (t, Stop o) => (t, Stop o)
  end.

Definition emit (e : Event) : M unit := ([e], Next tt).
Definition log (l : Level) (m : Msg) : M unit := emit (Log l m).
Definition sys_exit {A} (code : Z) : M A := ([], Stop (Exit code)).
Definition raise {A} (e : PyExc) : M A := ([], Stop (Uncaught e)).

Declare Scope py_scope.
Delimit Scope py_scope with py.
Notation "x <- m ;; k" := (bind m (fun x => k))
  (at level 100, m at next level, right associativity) : py_scope.
Notation "m ;; k" := (bind m (fun _ => k))
  (at level 100, right associativity) : py_scope.
Open Scope py_scope.

(** A method call on [client], which is [None] for the server and the PSQ
    worker. *)
Definition call (client : option Client) (c : ClientCall) : M unit :=
  match client with
  | Some _ => emit (Call c)
  | None => raise AttributeError
  end.

(** A script that runs to its end exits with status 0. *)
Definition run (m : M unit) : list Event * Outcome :=
  match m with
  | (t, Next _) => (t, Exit 0)
  | (t, Stop o) => (t, o)
  end.

(** ** [main], from [args = parser.parse_args()] on *)

Section Main.

Variable cfg : config.t.
Variable a : args.t.

(** Lines 307-314. *)
Definition set_log_level : M unit :=
  (if args.quiet a then emit (SetLevel ERROR)
   else if args.debug a then emit (SetLevel DEBUG)
   else emit (SetLevel INFO)) ;;
  log INFO (MsgVersion (config.version cfg)).

(** Lines 316-320. *)
Definition check_job_filters : M unit :=
  if (Py.nonempty (args.jobs_whitelist a)
      && Py.nonempty (args.jobs_blacklist a))%bool
  then log ERROR MsgFilterConflict ;; sys_exit 1
  else ret tt.

(** Lines 322-332: the value of [filter_patterns]. *)
Definition load_filter_patterns : M (option (list string)) :=
  match args.filter_patterns_file a with
  | Some (String c r) =>
      let file := String c r in
      if negb (config.os_path_exists cfg file)
      then log ERROR MsgFilterFileMissing ;; sys_exit 1
      else match config.open_read_splitlines cfg file with
           | Lines lines => ret (Some lines)
           | IOError e => log WARNING (MsgCannotOpen file e) ;; ret None
           end
  | _ => ret None
  end.

(** Lines 335-344: the value of [client]. *)
Definition make_client : M (option Client) :=
  emit LoadConfig ;;
  match args.command a with
  | CmdPsqWorker _ | CmdServer => ret None
  | _ =>
      let c :=
        if String.eqb (Py.lower (config.TASK_MANAGER cfg)) "celery"
        then TurbiniaCeleryClient
        else if args.run_local a then TurbiniaClient true
        else TurbiniaClient false in
      emit (NewClient c) ;; ret (Some c)
  end.

Definition server_flags_set : bool :=
  (args.server a
   || match args.command a with CmdServer => true | _ => false end)%bool.

Definition worker_flags_set : bool :=
  match args.command a with
  | CmdPsqWorker _ | CmdCeleryWorker => true
  | _ => false
  end.

(** Lines 346-359. *)
Definition check_run_local : M unit :=
  (if (args.run_local a && (server_flags_set || worker_flags_set))%bool
   then log ERROR MsgRunLocalWithServerOrWorker ;; sys_exit 1
   else ret tt) ;;
  (if (args.run_local a && negb (Py.truthy (args.task a)))%bool
   then log ERROR MsgRunLocalNeedsTask ;; sys_exit 1
   else ret tt) ;;
  (match args.output_dir a with
   | Some (String c r) => emit (SetOutputDir (String c r))
   | _ => ret tt
   end) ;;
  (match args.log_file a with
   | Some (String c r) => emit (SetLogFile (String c r))
   | _ => ret tt
   end).

Definition abspath (path : string) : string :=
  PosixPath.abspath (config.os_getcwd cfg) path.

(** Lines 428-458: the [status] command. *)
Definition status (client : option Client) (close : bool) (days_history : Z)
    (priority_filter : Z) (full_report : bool) (task_id user : option string)
  : M unit :=
  let region := config.TURBINIA_REGION cfg in
  (if close then
     if (Py.truthy user || Py.truthy (args.request_id a)
         || Py.truthy task_id)%bool
     then
       let c := close_tasks (config.INSTANCE_ID cfg)
                  (config.TURBINIA_PROJECT cfg) region (args.request_id a)
                  task_id user (config.getpass_getuser cfg) in
       call client c ;; emit (Print (ResultOf c)) ;; sys_exit 0
     else log INFO MsgCloseTasksNeedsSelector ;; sys_exit 1
   else ret tt) ;;
  (if (args.wait a && Py.truthy (args.request_id a))%bool
   then call client
          (wait_for_request (config.INSTANCE_ID cfg)
             (config.TURBINIA_PROJECT cfg) region (args.request_id a) user
             (args.poll_interval a))
   else if (args.wait a && negb (Py.truthy (args.request_id a)))%bool
   then log INFO MsgWaitNeedsRequestId
   else ret tt) ;;
  let c := format_task_status (config.INSTANCE_ID cfg)
             (config.TURBINIA_PROJECT cfg) region (Some days_history) task_id
             (args.request_id a) user (args.all_fields a) (Some full_report)
             (Some priority_filter) in
  call client c ;; emit (Print (ResultOf c)).

(** An evidence constructor call. *)
Definition construct (e : Evidence) (is_cloud_disk : bool)
  : M (option Evidence * bool) :=
  emit (NewEvidence e) ;; ret (Some e, is_cloud_disk).

(** Lines 361-463: the values of [evidence_] and [is_cloud_disk]. *)
Definition run_command (client : option Client) : M (option Evidence * bool) :=
  match args.command a with
  | CmdRawDisk local_path mount_partition source name =>
      let name := Py.or_else name local_path in
      let local_path := abspath local_path in
      construct (RawDisk name local_path mount_partition source) false
  | CmdApfs local_path recovery_key password source name =>
      if (negb (Py.truthy password) && negb (Py.truthy recovery_key))%bool
      then log ERROR MsgNoKeyNorPassword ;; sys_exit 1
      else
        let name := Py.or_else name local_path in
        let local_path := abspath local_path in
        construct
          (APFSEncryptedDisk name local_path recovery_key password source)
          false
  | CmdBitlocker local_path recovery_key password source name =>
      if (negb (Py.truthy password) && negb (Py.truthy recovery_key))%bool
      then log ERROR MsgNoKeyNorPassword ;; sys_exit 1
      else
        let name := Py.or_else name local_path in
        let local_path := abspath local_path in
        construct (BitlockerDisk name local_path recovery_key password source)
          false
  | CmdDirectory local_path source name =>
      let name := Py.or_else name local_path in
      let local_path := abspath local_path in
      construct (Directory name local_path source) false
  | CmdGoogleCloudDisk disk_name project mount_partition zone source name =>
      let name := Py.or_else name disk_name in
      construct
        (GoogleCloudDisk name disk_name project mount_partition zone source)
        true
  | CmdGoogleCloudDiskEmbedded embedded_path disk_name project mount_partition
      zone source name =>
      let name := Py.or_else name disk_name in
      construct
        (GoogleCloudDiskRawEmbedded name disk_name embedded_path
           mount_partition project zone source)
        true
  | CmdRawMemory local_path profile name module_list =>
      let name := Py.or_else name local_path in
      let local_path := abspath local_path in
      construct (RawMemory name local_path profile module_list) false
  | CmdPsqWorker _ =>
      emit LoggerSetup ;; emit PsqWorkerStart ;; ret (None, false)
  | CmdCeleryWorker =>
      emit LoggerSetup ;; emit CeleryWorkerStart ;; ret (None, false)
  | CmdServer =>
      emit (NewServer (Some (args.jobs_blacklist a, args.jobs_whitelist a))) ;;
      emit ServerStart ;; ret (None, false)
  | CmdStatus close days_history _ priority_filter full_report task_id user =>
      status client close days_history priority_filter full_report task_id
        user ;;
      ret (None, false)
  | CmdListJobs =>
      log INFO MsgAvailableJobs ;; call client list_jobs ;; ret (None, false)
  | CmdNone =>
      (* Every subcommand the parser knows has its branch above, so the
         [else] branch is only reached without a subcommand, where
         ['{0:s}'.format(None)] raises before anything is logged. *)
      raise TypeError
  end.

(** Lines 465-477: the check of the evidence against the deployment. *)
Definition compatibility_gate (evidence_ : option Evidence) : M unit :=
  match evidence_ with
  | Some e =>
      if negb (args.force_evidence a) then
        if (config.SHARED_FILESYSTEM cfg && evidence.cloud_only e)%bool
        then log ERROR (MsgCloudOnlyOnSharedFilesystem (evidence.type e)) ;;
             sys_exit 1
        else if (negb (config.SHARED_FILESYSTEM cfg)
                 && negb (evidence.cloud_only e))%bool
        then log ERROR (MsgNotCloudCompatible (evidence.type e)) ;; sys_exit 1
        else ret tt
      else ret tt
  | None => ret tt
  end.

(** Lines 479-490. *)
Definition project_check (evidence_ : option Evidence) (is_cloud_disk : bool)
  : M unit :=
  if is_cloud_disk then
    match evidence_ ≫= evidence.project with
    | Some project =>
        if negb (String.eqb project (config.TURBINIA_PROJECT cfg)) then
          if args.force_evidence a
          then log WARNING
                 (MsgProjectDiffers (config.TURBINIA_PROJECT cfg) project false)
          else log ERROR
                 (MsgProjectDiffers (config.TURBINIA_PROJECT cfg) project true) ;;
               sys_exit 1
        else ret tt
    | None => raise AttributeError
    end
  else ret tt.

(** Modelled from the spec: the constructor of
    [turbinia.message.TurbiniaRequest], which is not among the sources. The
    request id is "caller-supplied or generated"; the evidence list and the
    recipe start empty. *)
Definition TurbiniaRequest (request_id : option string) (requester : string)
  : request.t :=
  {| request.request_id :=
       match request_id with
       | Some r => r
       | None => config.new_request_id cfg
       end;
     request.requester := requester;
     request.evidence := [];
     request.recipe := ∅ |}.

(** [request.evidence.append(e)] *)
Definition append_evidence (e : Evidence) (r : request.t) : request.t :=
  {| request.request_id := request.request_id r;
     request.requester := request.requester r;
     request.evidence := (request.evidence r ++ [e])%list;
     request.recipe := request.recipe r |}.

(** [request.recipe[key] = value] *)
Definition set_recipe (key : string) (value : list string) (r : request.t)
  : request.t :=
  {| request.request_id := request.request_id r;
     request.requester := request.requester r;
     request.evidence := request.evidence r;
     request.recipe := <[key := value]> (request.recipe r) |}.

(** Lines 502-510: the request as it is when [main] uses it. *)
Definition build_request (e : Evidence) (filter_patterns : option (list string))
  : request.t :=
  let r := TurbiniaRequest (args.request_id a) (config.getpass_getuser cfg) in
  let r := append_evidence e r in
  let r := match filter_patterns with
           | Some (p :: ps) => set_recipe "filter_patterns" (p :: ps) r
           | _ => r
           end in
  let r := if Py.nonempty (args.jobs_blacklist a)
           then set_recipe "jobs_blacklist" (args.jobs_blacklist a) r
           else r in
  let r := if Py.nonempty (args.jobs_whitelist a)
           then set_recipe "jobs_whitelist" (args.jobs_whitelist a) r
           else r in
  r.

(** Lines 496-538: the value of [request]. *)
Definition dispatch (client : option Client) (evidence_ : option Evidence)
    (filter_patterns : option (list string)) : M (option request.t) :=
  match evidence_ with
  | Some e =>
      if args.server a then
        emit (NewServer None) ;; emit (ServerAddEvidence e) ;;
        emit ServerStart ;; ret None
      else
        let request := build_request e filter_patterns in
        emit (NewRequest (TurbiniaRequest (args.request_id a)
                            (config.getpass_getuser cfg))) ;;
        (if args.dump_json a
         then emit (Print (Json request)) ;; sys_exit 0
         else
           log INFO (MsgCreatingRequest (request.request_id request)
                       (evidence.name e)) ;;
           log INFO (MsgStatusHint (request.request_id request)) ;;
           if negb (args.run_local a)
           then call client (send_request request)
           else log DEBUG MsgRunLocalNotSending) ;;
        (if args.wait a then
           log INFO (MsgWaiting (request.request_id request)) ;;
           let region := config.TURBINIA_REGION cfg in
           call client
             (wait_for_request (config.INSTANCE_ID cfg)
                (config.TURBINIA_PROJECT cfg) region
                (Some (request.request_id request)) None
                (args.poll_interval a)) ;;
           let c := format_task_status (config.INSTANCE_ID cfg)
                      (config.TURBINIA_PROJECT cfg) region None None
                      (Some (request.request_id request)) None
                      (args.all_fields a) None None in
           call client c ;; emit (Print (ResultOf c))
         else ret tt) ;;
        ret (Some request)
  | None => ret None
  end.

(** Lines 540-551. *)
Definition finish (client : option Client) (evidence_ : option Evidence)
    (request : option request.t) : M unit :=
  (if (args.run_local a && negb (Py.not_none evidence_))%bool
   then log ERROR MsgEvidenceRequired ;; sys_exit 1
   else ret tt) ;;
  (if args.run_local a then
     match evidence_ with
     | Some e =>
         if evidence.cloud_only e
         then log ERROR MsgRunLocalCloudOnly ;; sys_exit 1
         else ret tt
     | None => raise AttributeError
     end
   else ret tt) ;;
  (if (args.run_local a && Py.not_none evidence_)%bool
   then call client (run_local_task (args.task a) request) ;;
        log INFO (MsgTaskResult (args.task a))
   else ret tt) ;;
  log INFO MsgDone ;;
  sys_exit 0.

(** Lines 306-463: everything up to and including the command's branch. *)
Record Intake : Type := {
  filter_patterns : option (list string);
  client : option Client;
  evidence_ : option Evidence;
  is_cloud_disk : bool
}.

(** Lines 335-463, once [filter_patterns] has its value. *)
Definition intake_with (fp : option (list string)) : M Intake :=
  cl <- make_client ;;
  check_run_local ;;
  ev <- run_command cl ;;
  ret {| filter_patterns := fp; client := cl;
         evidence_ := fst ev; is_cloud_disk := snd ev |}.

Definition intake : M Intake :=
  set_log_level ;;
  check_job_filters ;;
  fp <- load_filter_patterns ;;
  intake_with fp.

(** Lines 496-551: what is left once the gate and the project check are
    passed. *)
Definition dispatch_and_finish (i : Intake) : M unit :=
  request <- dispatch (client i) (evidence_ i) (filter_patterns i) ;;
  finish (client i) (evidence_ i) request.

(** Lines 465-551: what [main] does with the evidence. *)
Definition process (i : Intake) : M unit :=
  compatibility_gate (evidence_ i) ;;
  project_check (evidence_ i) (is_cloud_disk i) ;;
  dispatch_and_finish i.

Definition main_body : M unit := i <- intake ;; process i.

Definition main : list Event * Outcome := run main_body.

End Main.

(** ** Reading a run *)

(** The attributes [args.name], [args.local_path] and [args.disk_name], for
    the subcommands whose subparser defines them. *)
Definition cmd_name (c : Command) : option string :=
  match c with
  | CmdRawDisk _ _ _ n | CmdApfs _ _ _ _ n | CmdBitlocker _ _ _ _ n
  | CmdDirectory _ _ n | CmdGoogleCloudDisk _ _ _ _ _ n
  | CmdGoogleCloudDiskEmbedded _ _ _ _ _ _ n | CmdRawMemory _ _ n _ => n
  | _ => None
  end.

Definition cmd_local_path (c : Command) : option string :=
  match c with
  | CmdRawDisk p _ _ _ | CmdApfs p _ _ _ _ | CmdBitlocker p _ _ _ _
  | CmdDirectory p _ _ | CmdRawMemory p _ _ _ => Some p
  | _ => None
  end.

Definition cmd_disk_name (c : Command) : option string :=
  match c with
  | CmdGoogleCloudDisk d _ _ _ _ _ | CmdGoogleCloudDiskEmbedded _ d _ _ _ _ _ =>
      Some d
  | _ => None
  end.

(** The requests a collaborator gets to see in a call. *)
Definition requests_of_call (c : ClientCall) : list request.t :=
  match c with
  | send_request r => [r]
  | run_local_task _ (Some r) => [r]
  | _ => []
  end.

Definition requests_of_event (ev : Event) : list request.t :=
  match ev with
  | NewRequest r => [r]
  | Call c => requests_of_call c
  | Print (ResultOf c) => requests_of_call c
  | Print (Json r) => [r]
  | _ => []
  end.

(** A property of every request an event shows. *)
Definition all_requests (Q : request.t -> Prop) (ev : Event) : Prop :=
  Forall Q (requests_of_event ev).

(** Every request that shows up anywhere in a trace. *)
Definition requests_of (t : list Event) : list request.t :=
  concat (map requests_of_event t).

Definition is_send_request (ev : Event) : bool :=
  match ev with Call (send_request _) => true | _ => false end.

Definition is_wait_for_request (ev : Event) : bool :=
  match ev with Call (wait_for_request _ _ _ _ _ _) => true | _ => false end.

Definition is_new_evidence (ev : Event) : bool :=
  match ev with NewEvidence _ => true | _ => false end.

Definition is_run_local_task (ev : Event) : bool :=
  match ev with Call (run_local_task _ _) => true | _ => false end.

Definition is_print (ev : Event) : bool :=
  match ev with Print _ => true | _ => false end.

(** A logged message that mentions [--force_evidence]. *)
Definition suggests_force (ev : Event) : bool :=
  match ev with
  | Log _ m => Py.contains "--force_evidence" (render m)
  | _ => false
  end.

(** A request whose recipe has both job filters, each non-empty. *)
Definition carries_both_filters (r : request.t) : Prop :=
  exists b w : list string,
    request.recipe r !! "jobs_blacklist" = Some b /\ b <> []
    /\ request.recipe r !! "jobs_whitelist" = Some w /\ w <> [].

(** An event that shows no request. *)
Definition no_request (ev : Event) : Prop := requests_of_event ev = [].

(** A property of every event of a computation's trace. *)
Definition always {A} (P : Event -> Prop) (m : M A) : Prop := Forall P (fst m).

(** ** Sample invocations *)

Module Sample.

Definition cfg (shared_filesystem : bool) : config.t :=
  {| config.TASK_MANAGER := "PSQ";
     config.SHARED_FILESYSTEM := shared_filesystem;
     config.TURBINIA_PROJECT := "proj-b";
     config.TURBINIA_REGION := "us-central1";
     config.INSTANCE_ID := "turbinia-main";
     config.os_path_exists := fun f => String.eqb f "/etc/patterns.txt";
     config.open_read_splitlines := fun _ => IOError "Permission denied";
     config.os_getcwd := "/home/analyst";
     config.getpass_getuser := "analyst";
     config.version := "20190819";
     config.new_request_id := "0f1e2d3c" |}.

(** [turbiniactl <command>] with every global option at its default. *)
Definition plain (c : Command) : args.t :=
  {| args.quiet := false; args.verbose := true; args.debug := false;
     args.all_fields := false; args.force_evidence := false;
     args.output_dir := None; args.log_file := None;
     args.request_id := None; args.run_local := false;
     args.server := false; args.dump_json := false;
     args.filter_patterns_file := None; args.jobs_whitelist := [];
     args.jobs_blacklist := []; args.poll_interval := 60;
     args.task := None; args.wait := false; args.command := c |}.

Definition with_force (x : args.t) : args.t :=
  {| args.quiet := args.quiet x; args.verbose := args.verbose x;
     args.debug := args.debug x; args.all_fields := args.all_fields x;
     args.force_evidence := true;
     args.output_dir := args.output_dir x; args.log_file := args.log_file x;
     args.request_id := args.request_id x; args.run_local := args.run_local x;
     args.server := args.server x; args.dump_json := args.dump_json x;
     args.filter_patterns_file := args.filter_patterns_file x;
     args.jobs_whitelist := args.jobs_whitelist x;
     args.jobs_blacklist := args.jobs_blacklist x;
     args.poll_interval := args.poll_interval x;
     args.task := args.task x; args.wait := args.wait x;
     args.command := args.command x |}.

Definition with_dump_json (x : args.t) : args.t :=
  {| args.quiet := args.quiet x; args.verbose := args.verbose x;
     args.debug := args.debug x; args.all_fields := args.all_fields x;
     args.force_evidence := args.force_evidence x;
     args.output_dir := args.output_dir x; args.log_file := args.log_file x;
     args.request_id := args.request_id x; args.run_local := args.run_local x;
     args.server := args.server x; args.dump_json := true;
     args.filter_patterns_file := args.filter_patterns_file x;
     args.jobs_whitelist := args.jobs_whitelist x;
     args.jobs_blacklist := args.jobs_blacklist x;
     args.poll_interval := args.poll_interval x;
     args.task := args.task x; args.wait := args.wait x;
     args.command := args.command x |}.

Definition with_run_local (t : string) (x : args.t) : args.t :=
  {| args.quiet := args.quiet x; args.verbose := args.verbose x;
     args.debug := args.debug x; args.all_fields := args.all_fields x;
     args.force_evidence := args.force_evidence x;
     args.output_dir := args.output_dir x; args.log_file := args.log_file x;
     args.request_id := args.request_id x; args.run_local := true;
     args.server := args.server x; args.dump_json := args.dump_json x;
     args.filter_patterns_file := args.filter_patterns_file x;
     args.jobs_whitelist := args.jobs_whitelist x;
     args.jobs_blacklist := args.jobs_blacklist x;
     args.poll_interval := args.poll_interval x;
     args.task := Some t; args.wait := args.wait x;
     args.command := args.command x |}.

Definition with_wait (x : args.t) : args.t :=
  {| args.quiet := args.quiet x; args.verbose := args.verbose x;
     args.debug := args.debug x; args.all_fields := args.all_fields x;
     args.force_evidence := args.force_evidence x;
     args.output_dir := args.output_dir x; args.log_file := args.log_file x;
     args.request_id := args.request_id x; args.run_local := args.run_local x;
     args.server := args.server x; args.dump_json := args.dump_json x;
     args.filter_patterns_file := args.filter_patterns_file x;
     args.jobs_whitelist := args.jobs_whitelist x;
     args.jobs_blacklist := args.jobs_blacklist x;
     args.poll_interval := args.poll_interval x;
     args.task := args.task x; args.wait := true;
     args.command := args.command x |}.

Definition with_filters (file : option string) (wl bl : list string)
    (x : args.t) : args.t :=
  {| args.quiet := args.quiet x; args.verbose := args.verbose x;
     args.debug := args.debug x; args.all_fields := args.all_fields x;
     args.force_evidence := args.force_evidence x;
     args.output_dir := args.output_dir x; args.log_file := args.log_file x;
     args.request_id := args.request_id x; args.run_local := args.run_local x;
     args.server := args.server x; args.dump_json := args.dump_json x;
     args.filter_patterns_file := file;
     args.jobs_whitelist := wl;
     args.jobs_blacklist := bl;
     args.poll_interval := args.poll_interval x;
     args.task := args.task x; args.wait := args.wait x;
     args.command := args.command x |}.

(** [rawdisk -l /data/img.dd] *)
Definition rawdisk : Command := CmdRawDisk "/data/img.dd" 1 None None.

(** [rawdisk -l img.dd], run from [/home/analyst] *)
Definition rawdisk_relative : Command := CmdRawDisk "img.dd" 1 None None.

(** [googleclouddisk -d disk1 -p proj-a -z us-central1-f] *)
Definition clouddisk : Command :=
  CmdGoogleCloudDisk "disk1" "proj-a" 0 "us-central1-f" None None.

(** The same disk in the project of the deployment. *)
Definition clouddisk_same_project : Command :=
  CmdGoogleCloudDisk "disk1" "proj-b" 0 "us-central1-f" None None.

(** [status], and [status -c] *)
Definition status_plain : Command := CmdStatus false 0 false 20 false None None.
Definition status_close : Command := CmdStatus true 0 false 20 false None None.

End Sample.

(** ** Further readers of a run *)

(** The number of occurrences of a character in a string. *)
Fixpoint count_char (c : ascii) (s : string) : nat :=
  match s with
  | EmptyString => O
  | String d r => if Ascii.eqb d c then S (count_char c r) else count_char c r
  end.

(** An event that builds evidence, calls the client, prints, or starts a
    worker or a server: anything beyond logging, loading the configuration,
    creating the client and setting configuration values. *)
Definition is_action (ev : Event) : bool :=
  match ev with
  | NewEvidence _ | LoggerSetup | PsqWorkerStart | CeleryWorkerStart
  | NewServer _ | ServerAddEvidence _ | ServerStart | Call _ | NewRequest _
  | Print _ => true
  | _ => false
  end.

(** An event that hands the evidence on: to an embedded server, to the
    remote backend, to a local task, or to standard output as JSON. *)
Definition is_submission (ev : Event) : bool :=
  match ev with
  | ServerAddEvidence _ => true
  | Call (send_request _) => true
  | Call (run_local_task _ _) => true
  | Print (Json _) => true
  | _ => false
  end.

(** The three ways in which a run that has built evidence [e] ends with
    exit code 1, in the order of lines 465-477, 479-490 and 543-545. *)
Definition evidence_run_fails (cfg : config.t) (a : args.t) (e : Evidence)
  : bool :=
  (negb (args.force_evidence a)
   && Bool.eqb (config.SHARED_FILESYSTEM cfg) (evidence.cloud_only e))
  || (negb (args.force_evidence a)
      && match evidence.project e with
         | Some p => negb (String.eqb p (config.TURBINIA_PROJECT cfg))
         | None => false
         end)
  || (args.run_local a && evidence.cloud_only e && negb (args.dump_json a)).

(** The events of a wait for a request that was just created: lines
    526-538. *)
Definition wait_events (cfg : config.t) (a : args.t) (r : request.t)
  : list Event :=
  let c := format_task_status (config.INSTANCE_ID cfg)
             (config.TURBINIA_PROJECT cfg) (config.TURBINIA_REGION cfg)
             None None (Some (request.request_id r)) None
             (args.all_fields a) None None in
  [Log INFO (MsgWaiting (request.request_id r));
   Call (wait_for_request (config.INSTANCE_ID cfg)
           (config.TURBINIA_PROJECT cfg) (config.TURBINIA_REGION cfg)
           (Some (request.request_id r)) None (args.poll_interval a));
   Call c; Print (ResultOf c)].

(** An event that is no action. *)
Definition quiet_event (ev : Event) : Prop := is_action ev = false.

(** A computation that ends the run with exit code [code], after events
    that all satisfy [P]. *)
Definition stops_with {A} (code : Z) (P : Event -> Prop) (m : M A) : Prop :=
  exists t, m = (t, Stop (Exit code)) /\ Forall P t.

(** A computation that goes on, after events that all satisfy [P]. *)
Definition goes_on {A} (P : Event -> Prop) (m : M A) : Prop :=
  exists t x, m = (t, Next x) /\ Forall P t.


(** The events of the branch of a worker or server command: lines
    412-425. *)
Definition role_events (a : args.t) : list Event :=
  match args.command a with
  | CmdPsqWorker _ => [LoggerSetup; PsqWorkerStart]
  | CmdCeleryWorker => [LoggerSetup; CeleryWorkerStart]
  | CmdServer =>
      [NewServer (Some (args.jobs_blacklist a, args.jobs_whitelist a));
       ServerStart]
  | _ => []
  end.


Module More.

Definition with_server (x : args.t) : args.t :=
  {| args.quiet := args.quiet x; args.verbose := args.verbose x;
     args.debug := args.debug x; args.all_fields := args.all_fields x;
     args.force_evidence := args.force_evidence x;
     args.output_dir := args.output_dir x; args.log_file := args.log_file x;
     args.request_id := args.request_id x; args.run_local := args.run_local x;
     args.server := true; args.dump_json := args.dump_json x;
     args.filter_patterns_file := args.filter_patterns_file x;
     args.jobs_whitelist := args.jobs_whitelist x;
     args.jobs_blacklist := args.jobs_blacklist x;
     args.poll_interval := args.poll_interval x;
     args.task := args.task x; args.wait := args.wait x;
     args.command := args.command x |}.

Definition with_request_id (r : string) (x : args.t) : args.t :=
  {| args.quiet := args.quiet x; args.verbose := args.verbose x;
     args.debug := args.debug x; args.all_fields := args.all_fields x;
     args.force_evidence := args.force_evidence x;
     args.output_dir := args.output_dir x; args.log_file := args.log_file x;
     args.request_id := Some r; args.run_local := args.run_local x;
     args.server := args.server x; args.dump_json := args.dump_json x;
     args.filter_patterns_file := args.filter_patterns_file x;
     args.jobs_whitelist := args.jobs_whitelist x;
     args.jobs_blacklist := args.jobs_blacklist x;
     args.poll_interval := args.poll_interval x;
     args.task := args.task x; args.wait := args.wait x;
     args.command := args.command x |}.

(** [--run_local] without [--task] *)
Definition with_run_local_only (x : args.t) : args.t :=
  {| args.quiet := args.quiet x; args.verbose := args.verbose x;
     args.debug := args.debug x; args.all_fields := args.all_fields x;
     args.force_evidence := args.force_evidence x;
     args.output_dir := args.output_dir x; args.log_file := args.log_file x;
     args.request_id := args.request_id x; args.run_local := true;
     args.server := args.server x; args.dump_json := args.dump_json x;
     args.filter_patterns_file := args.filter_patterns_file x;
     args.jobs_whitelist := args.jobs_whitelist x;
     args.jobs_blacklist := args.jobs_blacklist x;
     args.poll_interval := args.poll_interval x;
     args.task := None; args.wait := args.wait x;
     args.command := args.command x |}.

(** A deployment whose patterns file can be read. *)
Definition cfg_readable (lines : list string) : config.t :=
  {| config.TASK_MANAGER := "PSQ";
     config.SHARED_FILESYSTEM := true;
     config.TURBINIA_PROJECT := "proj-b";
     config.TURBINIA_REGION := "us-central1";
     config.INSTANCE_ID := "turbinia-main";
     config.os_path_exists := fun f => String.eqb f "/etc/patterns.txt";
     config.open_read_splitlines := fun _ => Lines lines;
     config.os_getcwd := "/home/analyst";
     config.getpass_getuser := "analyst";
     config.version := "20190819";
     config.new_request_id := "0f1e2d3c" |}.

(** [apfs -l /data/mac.dmg], with neither key nor password, and with a
    password. *)
Definition apfs_bare : Command := CmdApfs "/data/mac.dmg" None None None None.
Definition apfs_password : Command :=
  CmdApfs "/data/mac.dmg" None (Some "hunter2") None None.

(** [rawdisk -l /data/img.dd -n case42] *)
Definition rawdisk_named : Command :=
  CmdRawDisk "/data/img.dd" 1 None (Some "case42").

(** [status -c -u analyst] *)
Definition status_close_user : Command :=
  CmdStatus true 0 false 20 false None (Some "analyst").

End More.

(** * Properties *)

(** ** The model on the scenarios of the specification *)

Example abspath_absolute :
  PosixPath.abspath "/home/analyst" "/data/img.dd" = "/data/img.dd".
Proof. reflexivity. Qed.

Example abspath_relative :
  PosixPath.abspath "/home/analyst" "cases/../img.dd" = "/home/analyst/img.dd".
Proof. reflexivity. Qed.

Example abspath_two_slashes :
  PosixPath.abspath "/" "//data/./x//y/" = "//data/x/y".
Proof. reflexivity. Qed.

Example csv_list_jobs : csv_list "StringsJob,,GrepJob," =
  ["StringsJob"; EmptyString; "GrepJob"; EmptyString].
Proof. reflexivity. Qed.

Example rawdisk_on_local_deployment :
  main (Sample.cfg true) (Sample.plain Sample.rawdisk)
  = (let e := RawDisk "/data/img.dd" "/data/img.dd" 1 None in
     let r0 := TurbiniaRequest (Sample.cfg true) None "analyst" in
     [SetLevel INFO; Log INFO (MsgVersion "20190819"); LoadConfig;
      NewClient (TurbiniaClient false); NewEvidence e; NewRequest r0;
      Log INFO (MsgCreatingRequest "0f1e2d3c" "/data/img.dd");
      Log INFO (MsgStatusHint "0f1e2d3c");
      Call (send_request (append_evidence e r0)); Log INFO MsgDone],
     Exit 0).
Proof. reflexivity. Qed.

Example clouddisk_of_another_project :
  main (Sample.cfg false) (Sample.plain Sample.clouddisk)
  = ([SetLevel INFO; Log INFO (MsgVersion "20190819"); LoadConfig;
      NewClient (TurbiniaClient false);
      NewEvidence
        (GoogleCloudDisk "disk1" "disk1" "proj-a" 0 "us-central1-f" None);
      Log ERROR (MsgProjectDiffers "proj-b" "proj-a" true)],
     Exit 1).
Proof. reflexivity. Qed.

(** ** Splitting and joining *)

Section Split.

Variable sep : ascii.

Lemma split_not_nil (s : string) : Py.split sep s <> [].
Proof.
  destruct s as [|c r]; simpl; [discriminate|].
  destruct (Ascii.eqb c sep); [discriminate|].
  destruct (Py.split sep r); discriminate.
Qed.

Lemma join_cons (x : string) (l : list string) :
  l <> [] ->
  Py.join (String sep EmptyString) (x :: l)
  = x +:+ String sep (Py.join (String sep EmptyString) l).
Proof. destruct l; [congruence | reflexivity]. Qed.

Lemma join_split (s : string) :
  Py.join (String sep EmptyString) (Py.split sep s) = s.
Proof.
  induction s as [|c r IH]; [reflexivity|].
  simpl Py.split. destruct (Ascii.eqb c sep) eqn:E.
  - apply Ascii.eqb_eq in E. subst c.
    rewrite join_cons by apply split_not_nil. simpl. by rewrite IH.
  - pose proof (split_not_nil r) as Hne.
    destruct (Py.split sep r) as [|piece pieces]; [congruence|].
    destruct pieces as [|p ps]; simpl in *; by rewrite <- IH.
Qed.

Lemma split_pieces (s : string) :
  Forall (fun piece => Py.contains_char sep piece = false) (Py.split sep s).
Proof.
  induction s as [|c r IH]; simpl.
  - by constructor.
  - destruct (Ascii.eqb c sep) eqn:E.
    + by constructor.
    + destruct (Py.split sep r) as [|piece pieces]; simpl.
      * constructor; [|constructor]. simpl.
        rewrite Ascii.eqb_sym, E. reflexivity.
      * inversion IH; subst. constructor; [|assumption]. simpl.
        rewrite Ascii.eqb_sym, E. assumption.
Qed.

Lemma split_piece (x : string) :
  Py.contains_char sep x = false -> Py.split sep x = [x].
Proof.
  induction x as [|c r IH]; simpl; [reflexivity|].
  intros H. apply orb_false_iff in H as [Hc Hr].
  rewrite Ascii.eqb_sym, Hc. by rewrite IH.
Qed.

Lemma split_piece_sep (x t : string) :
  Py.contains_char sep x = false ->
  Py.split sep (x +:+ String sep t) = x :: Py.split sep t.
Proof.
  induction x as [|c r IH]; simpl.
  - intros _. by rewrite Ascii.eqb_refl.
  - intros H. apply orb_false_iff in H as [Hc Hr].
    rewrite Ascii.eqb_sym, Hc. by rewrite IH.
Qed.

(** Splitting undoes joining: the split list is the only list of
    separator-free pieces that joins to the string. *)
Lemma split_join (l : list string) :
  l <> [] ->
  Forall (fun piece => Py.contains_char sep piece = false) l ->
  Py.split sep (Py.join (String sep EmptyString) l) = l.
Proof.
  induction l as [|x rest IH]; [congruence|].
  intros _ Hall. inversion Hall as [|? ? Hx Hrest]; subst.
  destruct rest as [|y ys].
  - simpl. by apply split_piece.
  - rewrite join_cons by discriminate.
    rewrite split_piece_sep by assumption.
    f_equal. apply IH; [discriminate | assumption].
Qed.

End Split.

Lemma csv_list_is_comma_split (s : string) : is_comma_split s (csv_list s).
Proof.
  unfold is_comma_split, csv_list. split; [apply split_pieces|].
  split; [apply split_not_nil | apply (join_split comma)].
Qed.

Lemma comma_split_unique (s : string) (l : list string) :
  is_comma_split s l -> l = csv_list s.
Proof.
  intros (Hall & Hne & Hjoin). unfold csv_list. rewrite <- Hjoin.
  symmetry. by apply (split_join comma).
Qed.

(** ** The monad *)

Lemma bind_next {A B} (m : M A) (f : A -> M B) (t : list Event) (x : A) :
  m = (t, Next x) -> bind m f = ((t ++ fst (f x))%list, snd (f x)).
Proof. intros ->. simpl. by destruct (f x). Qed.

Lemma bind_stop {A B} (m : M A) (f : A -> M B) (t : list Event) (o : Outcome) :
  m = (t, Stop o) -> bind m f = (t, Stop o).
Proof. by intros ->. Qed.

Lemma bind_next_inv {A B} (m : M A) (f : A -> M B) (t : list Event) (y : B) :
  bind m f = (t, Next y) ->
  exists t1 x t2,
    m = (t1, Next x) /\ f x = (t2, Next y) /\ t = (t1 ++ t2)%list.
Proof.
  destruct m as [t1 [x|o]]; simpl; [|discriminate].
  destruct (f x) as [t2 r] eqn:E. intros [= <- <-]. by exists t1, x, t2.
Qed.

Lemma bind_assoc {A B C} (m : M A) (f : A -> M B) (g : B -> M C) :
  bind (bind m f) g = bind m (fun x => bind (f x) g).
Proof.
  destruct m as [t [x|o]]; simpl; [|reflexivity].
  destruct (f x) as [t' [y|o]]; simpl; [|reflexivity].
  destruct (g y) as [t'' r]. by rewrite app_assoc.
Qed.

Lemma bind_ret_l {A B} (x : A) (f : A -> M B) : bind (ret x) f = f x.
Proof. unfold ret. simpl. by destruct (f x). Qed.

Lemma always_ret {A} P (x : A) : always P (ret x).
Proof. constructor. Qed.

Lemma always_sys_exit {A} P (n : Z) : always P (@sys_exit A n).
Proof. constructor. Qed.

Lemma always_raise {A} P (e : PyExc) : always P (@raise A e).
Proof. constructor. Qed.

Lemma always_emit P (e : Event) : P e -> always P (emit e).
Proof. intros H. by repeat constructor. Qed.

Lemma always_call P (cl : option Client) (c : ClientCall) :
  P (Call c) -> always P (call cl c).
Proof. intros H. destruct cl; [by apply always_emit | constructor]. Qed.

Lemma always_bind {A B} P (m : M A) (f : A -> M B) :
  always P m ->
  (forall t x, m = (t, Next x) -> always P (f x)) ->
  always P (bind m f).
Proof.
  unfold always. destruct m as [t [x|o]]; simpl; [|tauto].
  intros Hm Hf. specialize (Hf t x eq_refl). destruct (f x) as [t' r].
  simpl in *. by apply Forall_app.
Qed.

Lemma always_run P (m : M unit) : always P m -> Forall P (fst (run m)).
Proof. unfold always, run. by destruct m as [t [[]|o]]. Qed.

Ltac always_step :=
  first
    [ apply always_ret | apply always_sys_exit | apply always_raise
    | apply always_emit | apply always_call
    | apply always_bind; [|intros ? ? ?]
    | match goal with
      | |- always _ (if ?b then _ else _) => destruct b eqn:?
      | |- always _ (match ?x with _ => _ end) => destruct x eqn:?
      | |- always _ (let _ := _ in _) => cbv zeta
      end ].

Ltac always_auto := unfold log; repeat always_step; try done.

(** ** Requests in a trace *)

Lemma requests_of_app (t u : list Event) :
  requests_of (t ++ u) = (requests_of t ++ requests_of u)%list.
Proof. unfold requests_of. by rewrite map_app, concat_app. Qed.

Lemma requests_of_none (t : list Event) :
  Forall no_request t -> requests_of t = [].
Proof.
  unfold requests_of. induction 1 as [|ev t Hev _ IH]; [reflexivity|].
  simpl. by rewrite Hev, IH.
Qed.

Lemma requests_of_elem (P : request.t -> Prop) (t : list Event) :
  Forall (fun ev => Forall P (requests_of_event ev)) t ->
  Forall P (requests_of t).
Proof.
  unfold requests_of. induction 1 as [|ev t Hev _ IH]; simpl.
  - constructor.
  - by apply Forall_app.
Qed.

Lemma no_request_not_send (ev : Event) :
  no_request ev -> is_send_request ev = false.
Proof. destruct ev as [| | | | | | | | | | | | |[]| |]; done. Qed.

Lemma intake_no_request cfg a : always no_request (intake cfg a).
Proof.
  unfold intake, intake_with, set_log_level, check_job_filters,
    load_filter_patterns, make_client, check_run_local, run_command, status,
    construct.
  always_auto.
Qed.

Lemma intake_no_local_task cfg a :
  always (fun ev => is_run_local_task ev = false) (intake cfg a).
Proof.
  unfold intake, intake_with, set_log_level, check_job_filters,
    load_filter_patterns, make_client, check_run_local, run_command, status,
    construct.
  always_auto.
Qed.

(** ** What a completed intake tells *)

Tactic Notation "bind_inv" hyp(H) "as" ident(t1) ident(x) ident(H1) ident(t2) :=
  apply bind_next_inv in H as (t1 & x & t2 & H1 & H & ->).

Ltac bind_inv' H :=
  apply bind_next_inv in H as (? & ? & ? & ? & H & ->).

Lemma check_job_filters_next a t u :
  check_job_filters a = (t, Next u) ->
  t = []
  /\ (Py.nonempty (args.jobs_whitelist a)
      && Py.nonempty (args.jobs_blacklist a))%bool = false.
Proof.
  unfold check_job_filters.
  destruct (_ && _)%bool; [discriminate|]. by intros [= <- _].
Qed.

Lemma check_run_local_next a t u :
  check_run_local a = (t, Next u) ->
  (args.run_local a = true ->
   args.server a = false /\ Py.truthy (args.task a) = true
   /\ worker_flags_set a = false)
  /\ Forall (fun ev => exists s, ev = SetOutputDir s \/ ev = SetLogFile s) t.
Proof.
  unfold check_run_local, server_flags_set, worker_flags_set, log.
  intros H.
  destruct (args.run_local a), (args.server a), (args.command a),
    (Py.truthy (args.task a)),
    (args.output_dir a) as [[|]|], (args.log_file a) as [[|]|];
    simpl in H; try discriminate; injection H as <-;
    (split; [by intros | repeat constructor; eauto]).
Qed.

Lemma run_command_evidence cfg a cl t e b :
  run_command cfg a cl = (t, Next (Some e, b)) ->
  t = [NewEvidence e]
  /\ b = evidence.cloud_only e
  /\ (b = true -> exists p, evidence.project e = Some p)
  /\ (forall t' cl', make_client cfg a = (t', Next cl') ->
      exists c, cl' = Some c).
Proof.
  unfold run_command, make_client, construct. intros H.
  destruct (args.command a);
    try solve [repeat bind_inv' H; discriminate];
    try solve [unfold raise in H; discriminate];
    simpl in H;
    repeat match type of H with
      | context [if ?c then _ else _] => destruct c; simpl in H
      end;
    try discriminate;
    injection H as <- <- <-;
    (repeat split; try done; eauto; intros t' cl' [= _ <-]; eauto).
Qed.

Lemma intake_inv cfg a tr i :
  intake cfg a = (tr, Next i) ->
  exists ta tc td te tf,
    set_log_level cfg a = (ta, Next tt)
    /\ check_job_filters a = ([], Next tt)
    /\ load_filter_patterns cfg a = (tc, Next (filter_patterns i))
    /\ make_client cfg a = (td, Next (client i))
    /\ check_run_local a = (te, Next tt)
    /\ run_command cfg a (client i) = (tf, Next (evidence_ i, is_cloud_disk i))
    /\ tr = (ta ++ tc ++ td ++ te ++ tf)%list.
Proof.
  unfold intake, intake_with. intros H.
  bind_inv H as ta u1 Ha tr1. bind_inv H as tb u2 Hb tr2.
  bind_inv H as tc fp Hc tr3. bind_inv H as td cl Hd tr4.
  bind_inv H as te u3 He tr5. bind_inv H as tf ev Hf tr6.
  injection H as <- <-. destruct u1, u2, u3, ev as [ev b]. simpl.
  destruct (check_job_filters_next a _ _ Hb) as [-> _].
  exists ta, tc, td, te, tf. rewrite app_nil_r. simpl. done.
Qed.

(** The facts the later stages rely on once evidence has been built. *)
Lemma intake_evidence cfg a tr i e :
  intake cfg a = (tr, Next i) -> evidence_ i = Some e ->
  is_cloud_disk i = evidence.cloud_only e
  /\ (evidence.cloud_only e = true -> exists p, evidence.project e = Some p)
  /\ (exists c, client i = Some c)
  /\ (args.run_local a = true ->
      args.server a = false /\ Py.truthy (args.task a) = true)
  /\ (Py.nonempty (args.jobs_whitelist a)
      && Py.nonempty (args.jobs_blacklist a))%bool = false
  /\ exists pre, tr = (pre ++ [NewEvidence e])%list
                 /\ Forall (fun ev => is_new_evidence ev = false) pre.
Proof.
  intros H He. pose proof (intake_no_request cfg a) as Hnr.
  destruct (intake_inv _ _ _ _ H)
    as (ta & tc & td & te & tf & Ha & Hb & Hc & Hd & Hrl & Hcmd & ->).
  rewrite He in Hcmd.
  destruct (run_command_evidence _ _ _ _ _ _ Hcmd) as (-> & Hb' & Hp & Hcl).
  destruct (check_run_local_next _ _ _ Hrl) as [Hr Hte].
  destruct (check_job_filters_next _ _ _ Hb) as [_ Hf].
  repeat split.
  - assumption.
  - intros Hc'. apply Hp. congruence.
  - eauto.
  - by apply Hr.
  - by apply Hr.
  - assumption.
  - exists (ta ++ tc ++ td ++ te)%list. split.
    + by rewrite <- !app_assoc.
    + clear - Ha Hc Hd Hte.
      repeat apply Forall_app_2.
      * unfold set_log_level, log in Ha.
        destruct (args.quiet a), (args.debug a); injection Ha as <-;
          by repeat constructor.
      * unfold load_filter_patterns, log in Hc.
        destruct (args.filter_patterns_file a) as [[|]|];
          try (injection Hc as <- _; constructor).
        destruct (negb _); [discriminate|].
        destruct (config.open_read_splitlines _ _); injection Hc as <- _;
          by repeat constructor.
      * unfold make_client in Hd.
        destruct (args.command a); injection Hd as <- _;
          by repeat constructor.
      * eapply Forall_impl; [exact Hte|]. by intros ev [s [-> | ->]].
Qed.

Lemma main_after_intake cfg a tr i :
  intake cfg a = (tr, Next i) ->
  main cfg a
  = run ((tr ++ fst (process cfg a i))%list, snd (process cfg a i)).
Proof. intros H. unfold main, main_body. by rewrite (bind_next _ _ _ _ H). Qed.

Lemma main_intake_stop cfg a tr o :
  intake cfg a = (tr, Stop o) -> main cfg a = (tr, o).
Proof. intros H. unfold main, main_body. by rewrite (bind_stop _ _ _ _ H). Qed.

(** ** Text of the messages *)

Lemma startswith_append (n x y : string) :
  Py.startswith x n = true -> Py.startswith (x +:+ y) n = true.
Proof.
  revert x. induction n as [|c n IH]; intros x; [reflexivity|].
  destruct x as [|d x]; [done|].
  change (String d x +:+ y) with (String d (x +:+ y)). simpl.
  intros [-> H]%andb_true_iff. by apply IH.
Qed.

Lemma contains_append_l (n x y : string) :
  Py.contains n x = true -> Py.contains n (x +:+ y) = true.
Proof.
  induction x as [|c x IH].
  - simpl. rewrite orb_false_r. intros H. destruct n; [|done].
    by destruct y.
  - change (String c x +:+ y) with (String c (x +:+ y)). simpl.
    intros [H|H]%orb_true_iff; apply orb_true_iff.
    + left. by apply (startswith_append n (String c x) y).
    + right. by apply IH.
Qed.

Lemma contains_append_r (n x y : string) :
  Py.contains n y = true -> Py.contains n (x +:+ y) = true.
Proof.
  intros H. induction x as [|c x IH]; [assumption|].
  change (String c x +:+ y) with (String c (x +:+ y)). simpl.
  apply orb_true_iff. by right.
Qed.

Lemma project_message_suggests_force (tp ep : string) :
  Py.contains "--force_evidence" (render (MsgProjectDiffers tp ep true))
  = true.
Proof. unfold render. do 6 apply contains_append_r. reflexivity. Qed.

Lemma not_cloud_message_guides (ty : string) :
  Py.contains "Consider wrapping it in a GoogleCloudDiskRawEmbedded"
    (render (MsgNotCloudCompatible ty)) = true.
Proof. unfold render. do 3 apply contains_append_r. reflexivity. Qed.

(** ** The compatibility gate *)

Lemma gate_skipped_by_force cfg a e :
  args.force_evidence a = true -> compatibility_gate cfg a (Some e) = ret tt.
Proof. intros H. unfold compatibility_gate. by rewrite H. Qed.

Lemma main_stops_at_gate cfg a tr i e m :
  intake cfg a = (tr, Next i) -> evidence_ i = Some e ->
  compatibility_gate cfg a (Some e) = ([Log ERROR m], Stop (Exit 1)) ->
  main cfg a = ((tr ++ [Log ERROR m])%list, Exit 1).
Proof.
  intros Hi He Hg. rewrite (main_after_intake _ _ _ _ Hi).
  unfold process. rewrite He, Hg. reflexivity.
Qed.

(** C1, as the code has it: on a deployment with [SHARED_FILESYSTEM] true
    the gate stops evidence that is [cloud_only], with exit code 1 and
    right after the evidence was built, when [force_evidence] is not set;
    with [force_evidence] set the gate is skipped, and evidence that is not
    [cloud_only] passes the gate whatever the flag is. *)
Theorem gate_on_shared_filesystem cfg a tr i e :
  intake cfg a = (tr, Next i) -> evidence_ i = Some e ->
  config.SHARED_FILESYSTEM cfg = true ->
  (evidence.cloud_only e = true -> args.force_evidence a = false ->
   main cfg a
   = ((tr ++ [Log ERROR
                (MsgCloudOnlyOnSharedFilesystem (evidence.type e))])%list,
      Exit 1))
  /\ (args.force_evidence a = true ->
      compatibility_gate cfg a (Some e) = ret tt)
  /\ (evidence.cloud_only e = false ->
      compatibility_gate cfg a (Some e) = ret tt).
Proof.
  intros Hi He Hs. split; [|split].
  - intros Hc Hf. apply (main_stops_at_gate _ _ _ _ _ _ Hi He).
    unfold compatibility_gate. by rewrite Hf, Hs, Hc.
  - apply gate_skipped_by_force.
  - intros Hc. unfold compatibility_gate. rewrite Hs, Hc.
    by destruct (args.force_evidence a).
Qed.

Lemma gate_on_shared_filesystem_witness :
  config.SHARED_FILESYSTEM (Sample.cfg true) = true
  /\ snd (main (Sample.cfg true) (Sample.plain Sample.clouddisk)) = Exit 1.
Proof.
  split; [reflexivity|].
  destruct (gate_on_shared_filesystem (Sample.cfg true)
              (Sample.plain Sample.clouddisk) _ _ _ eq_refl eq_refl eq_refl)
    as [H _].
  rewrite (H eq_refl eq_refl). reflexivity.
Defined.

(** C1 as stated fails: a raw disk on a deployment with [SHARED_FILESYSTEM]
    true is not stopped; the request is sent and the run exits with 0. *)
Lemma gate_on_shared_filesystem_counterexample :
  (exists tr i e,
      intake (Sample.cfg true) (Sample.plain Sample.rawdisk) = (tr, Next i)
      /\ evidence_ i = Some e /\ evidence.cloud_only e = false)
  /\ config.SHARED_FILESYSTEM (Sample.cfg true) = true
  /\ snd (main (Sample.cfg true) (Sample.plain Sample.rawdisk)) = Exit 0
  /\ snd (main (Sample.cfg true) (Sample.with_force (Sample.plain Sample.rawdisk)))
     = Exit 0.
Proof.
  split; [|by vm_compute].
  eexists _, _, _. split; [vm_compute; reflexivity|]. by vm_compute.
Qed.

(** C2, as the code has it: on a deployment with [SHARED_FILESYSTEM] false
    the gate stops evidence that is not [cloud_only], with exit code 1 and
    the advice to wrap it in a [GoogleCloudDiskRawEmbedded], when
    [force_evidence] is not set; with [force_evidence] set the gate is
    skipped, and [cloud_only] evidence passes the gate whatever the flag
    is. *)
Theorem gate_without_shared_filesystem cfg a tr i e :
  intake cfg a = (tr, Next i) -> evidence_ i = Some e ->
  config.SHARED_FILESYSTEM cfg = false ->
  (evidence.cloud_only e = false -> args.force_evidence a = false ->
   main cfg a
   = ((tr ++ [Log ERROR (MsgNotCloudCompatible (evidence.type e))])%list,
      Exit 1)
   /\ Py.contains "Consider wrapping it in a GoogleCloudDiskRawEmbedded"
        (render (MsgNotCloudCompatible (evidence.type e))) = true)
  /\ (args.force_evidence a = true ->
      compatibility_gate cfg a (Some e) = ret tt)
  /\ (evidence.cloud_only e = true ->
      compatibility_gate cfg a (Some e) = ret tt).
Proof.
  intros Hi He Hs. split; [|split].
  - intros Hc Hf. split; [|apply not_cloud_message_guides].
    apply (main_stops_at_gate _ _ _ _ _ _ Hi He).
    unfold compatibility_gate. by rewrite Hf, Hs, Hc.
  - apply gate_skipped_by_force.
  - intros Hc. unfold compatibility_gate. rewrite Hs, Hc.
    by destruct (args.force_evidence a).
Qed.

Lemma gate_without_shared_filesystem_witness :
  config.SHARED_FILESYSTEM (Sample.cfg false) = false
  /\ snd (main (Sample.cfg false) (Sample.plain Sample.rawdisk)) = Exit 1.
Proof.
  split; [reflexivity|].
  destruct (gate_without_shared_filesystem (Sample.cfg false)
              (Sample.plain Sample.rawdisk) _ _ _ eq_refl eq_refl eq_refl)
    as [H _].
  destruct (H eq_refl eq_refl) as [-> _]. reflexivity.
Defined.

(** C2 as stated fails: a cloud disk of the deployment's own project on a
    deployment with [SHARED_FILESYSTEM] false is not stopped; the request is
    sent and the run exits with 0. *)
Lemma gate_without_shared_filesystem_counterexample :
  (exists tr i e,
      intake (Sample.cfg false) (Sample.plain Sample.clouddisk_same_project)
      = (tr, Next i)
      /\ evidence_ i = Some e /\ evidence.cloud_only e = true)
  /\ config.SHARED_FILESYSTEM (Sample.cfg false) = false
  /\ snd (main (Sample.cfg false)
            (Sample.plain Sample.clouddisk_same_project)) = Exit 0
  /\ Exists (fun ev => is_send_request ev = true)
       (fst (main (Sample.cfg false)
               (Sample.plain Sample.clouddisk_same_project))).
Proof.
  split.
  { eexists _, _, _. split; [vm_compute; reflexivity|]. by vm_compute. }
  split; [reflexivity|]. split; [by vm_compute|].
  vm_compute. do 8 apply Exists_cons_tl. by apply Exists_cons_hd.
Qed.

(** ** The project check *)

Lemma project_cloud_only (e : Evidence) (p : string) :
  evidence.project e = Some p -> evidence.cloud_only e = true.
Proof. by destruct e. Qed.

Lemma main_after_checks cfg a tr i w :
  intake cfg a = (tr, Next i) ->
  compatibility_gate cfg a (evidence_ i) = ret tt ->
  project_check cfg a (evidence_ i) (is_cloud_disk i) = (w, Next tt) ->
  main cfg a = run (((tr ++ w)%list, Next tt) ;; dispatch_and_finish cfg a i).
Proof.
  intros Hi Hg Hp. rewrite (main_after_intake _ _ _ _ Hi).
  unfold process. rewrite Hg, bind_ret_l, Hp.
  simpl. destruct (dispatch_and_finish _ _ _) as [t r]. simpl.
  by rewrite app_assoc.
Qed.

(** C3, as the code has it: for cloud evidence whose project differs from
    [TURBINIA_PROJECT], without [force_evidence] the run ends with exit
    code 1 -- on the project check, with the message that suggests
    [--force_evidence], when [SHARED_FILESYSTEM] is false, and already on
    the compatibility gate, with the gate's message, when it is true; with
    [force_evidence] the mismatch is logged as a warning and the run goes
    on to dispatch. *)
Theorem project_mismatch cfg a tr i e p :
  intake cfg a = (tr, Next i) -> evidence_ i = Some e ->
  evidence.project e = Some p -> p <> config.TURBINIA_PROJECT cfg ->
  (args.force_evidence a = false -> config.SHARED_FILESYSTEM cfg = false ->
   main cfg a
   = ((tr ++ [Log ERROR
                (MsgProjectDiffers (config.TURBINIA_PROJECT cfg) p true)])%list,
      Exit 1)
   /\ Py.contains "--force_evidence"
        (render (MsgProjectDiffers (config.TURBINIA_PROJECT cfg) p true))
      = true)
  /\ (args.force_evidence a = false -> config.SHARED_FILESYSTEM cfg = true ->
      main cfg a
      = ((tr ++ [Log ERROR
                   (MsgCloudOnlyOnSharedFilesystem (evidence.type e))])%list,
         Exit 1))
  /\ (args.force_evidence a = true ->
      main cfg a
      = run (((tr ++ [Log WARNING
                        (MsgProjectDiffers (config.TURBINIA_PROJECT cfg) p
                           false)])%list,
              Next tt) ;;
             dispatch_and_finish cfg a i)).
Proof.
  intros Hi He Hp Hne.
  pose proof (project_cloud_only _ _ Hp) as Hc.
  destruct (intake_evidence _ _ _ _ _ Hi He) as (Hcd & _).
  apply String.eqb_neq in Hne.
  split; [|split].
  - intros Hf Hs. split; [|apply project_message_suggests_force].
    rewrite (main_after_intake _ _ _ _ Hi). unfold process.
    rewrite He, Hcd, Hc. unfold compatibility_gate, project_check.
    rewrite Hf, Hs, Hc. simpl. rewrite Hp. simpl. rewrite Hne. reflexivity.
  - intros Hf Hs. apply (main_stops_at_gate _ _ _ _ _ _ Hi He).
    unfold compatibility_gate. by rewrite Hf, Hs, Hc.
  - intros Hf. apply (main_after_checks _ _ _ _ _ Hi).
    + rewrite He. by apply gate_skipped_by_force.
    + rewrite He, Hcd, Hc. unfold project_check. simpl.
      rewrite Hp, Hne, Hf. reflexivity.
Qed.

Lemma project_mismatch_witness :
  "proj-a" <> config.TURBINIA_PROJECT (Sample.cfg false)
  /\ snd (main (Sample.cfg false) (Sample.plain Sample.clouddisk)) = Exit 1
  /\ snd (main (Sample.cfg false)
            (Sample.with_force (Sample.plain Sample.clouddisk))) = Exit 0.
Proof.
  split; [discriminate|]. split.
  - destruct (project_mismatch (Sample.cfg false)
                (Sample.plain Sample.clouddisk) _ _ _ "proj-a"
                eq_refl eq_refl eq_refl ltac:(discriminate)) as [H _].
    destruct (H eq_refl eq_refl) as [-> _]. reflexivity.
  - destruct (project_mismatch (Sample.cfg false)
                (Sample.with_force (Sample.plain Sample.clouddisk)) _ _ _
                "proj-a" eq_refl eq_refl eq_refl ltac:(discriminate))
      as (_ & _ & H).
    rewrite (H eq_refl). reflexivity.
Defined.

(** C3 as stated fails: with [SHARED_FILESYSTEM] true the run of a cloud
    disk of another project ends on the gate's error, and no message that
    suggests [--force_evidence] is logged. *)
Lemma project_mismatch_counterexample :
  (exists tr i e,
      intake (Sample.cfg true) (Sample.plain Sample.clouddisk) = (tr, Next i)
      /\ evidence_ i = Some e /\ evidence.project e = Some "proj-a")
  /\ config.TURBINIA_PROJECT (Sample.cfg true) = "proj-b"
  /\ args.force_evidence (Sample.plain Sample.clouddisk) = false
  /\ snd (main (Sample.cfg true) (Sample.plain Sample.clouddisk)) = Exit 1
  /\ forallb (fun ev => negb (suggests_force ev))
       (fst (main (Sample.cfg true) (Sample.plain Sample.clouddisk))) = true.
Proof.
  split.
  { eexists _, _, _. split; [vm_compute; reflexivity|]. by vm_compute. }
  by vm_compute.
Qed.

(** ** The request and the dry run *)

Lemma build_request_evidence cfg a e fp :
  request.evidence (build_request cfg a e fp) = [e].
Proof.
  unfold build_request.
  destruct fp as [[|]|], (Py.nonempty (args.jobs_blacklist a)),
    (Py.nonempty (args.jobs_whitelist a)); reflexivity.
Qed.

Lemma nonempty_some {A} (l : list A) :
  (if Py.nonempty l then Some l else None)
  = match l with [] => None | _ :: _ => Some l end.
Proof. by destruct l. Qed.

Lemma build_request_recipe cfg a e fp :
  let recipe := request.recipe (build_request cfg a e fp) in
  recipe !! "filter_patterns"
  = match fp with Some (p :: ps) => Some (p :: ps) | _ => None end
  /\ recipe !! "jobs_blacklist"
     = (if Py.nonempty (args.jobs_blacklist a)
        then Some (args.jobs_blacklist a) else None)
  /\ recipe !! "jobs_whitelist"
     = (if Py.nonempty (args.jobs_whitelist a)
        then Some (args.jobs_whitelist a) else None).
Proof.
  unfold build_request.
  destruct fp as [[|]|], (Py.nonempty (args.jobs_blacklist a)),
    (Py.nonempty (args.jobs_whitelist a)); simpl;
    repeat split;
    repeat first
      [ rewrite lookup_insert_eq | rewrite lookup_insert_ne by done
      | rewrite lookup_empty ];
    reflexivity.
Qed.

Lemma dump_never_sends cfg a i e :
  evidence_ i = Some e -> args.server a = false -> args.dump_json a = true ->
  always (fun ev => is_send_request ev = false) (process cfg a i).
Proof.
  intros He Hs Hd.
  unfold process, dispatch_and_finish, compatibility_gate, project_check,
    dispatch, finish.
  rewrite He, Hs, Hd. always_auto.
Qed.

(** C4, as the code has it: when evidence is present, [server] is not set
    and [dump_json] is set, [send_request] is never called; and when the
    evidence passes the compatibility gate and the project check the run
    ends with exit code 0 right after printing the JSON form of the request,
    which holds the evidence (and so its name) and every recipe entry the
    command asked for. *)
Theorem dump_json_instead_of_sending cfg a tr i e :
  intake cfg a = (tr, Next i) -> evidence_ i = Some e ->
  args.server a = false -> args.dump_json a = true ->
  Forall (fun ev => is_send_request ev = false) (fst (main cfg a))
  /\ forall w,
      compatibility_gate cfg a (Some e) = ret tt ->
      project_check cfg a (Some e) (is_cloud_disk i) = (w, Next tt) ->
      let r := build_request cfg a e (filter_patterns i) in
      main cfg a
      = ((tr ++ w
          ++ [NewRequest
                (TurbiniaRequest cfg (args.request_id a)
                   (config.getpass_getuser cfg));
              Print (Json r)])%list,
         Exit 0)
      /\ request.evidence r = [e]
      /\ request.recipe r !! "filter_patterns"
         = match filter_patterns i with
           | Some (p :: ps) => Some (p :: ps)
           | _ => None
           end
      /\ request.recipe r !! "jobs_blacklist"
         = (if Py.nonempty (args.jobs_blacklist a)
            then Some (args.jobs_blacklist a) else None)
      /\ request.recipe r !! "jobs_whitelist"
         = (if Py.nonempty (args.jobs_whitelist a)
            then Some (args.jobs_whitelist a) else None).
Proof.
  intros Hi He Hs Hd. split.
  - rewrite (main_after_intake _ _ _ _ Hi). apply (always_run _ (_, _)).
    unfold always. simpl. apply Forall_app. split.
    + pose proof (intake_no_request cfg a) as Hn. unfold always in Hn.
      rewrite Hi in Hn. simpl in Hn.
      eapply Forall_impl; [exact Hn | apply no_request_not_send].
    + by apply (dump_never_sends cfg a i e).
  - intros w Hg Hp r. split; [|split; [apply build_request_evidence|]].
    + rewrite <- He in Hg, Hp.
      rewrite (main_after_checks _ _ _ _ _ Hi Hg Hp).
      unfold dispatch_and_finish, dispatch. rewrite He, Hs, Hd.
      simpl. by rewrite <- app_assoc.
    + apply build_request_recipe.
Qed.

Lemma dump_json_instead_of_sending_witness :
  args.server (Sample.with_dump_json (Sample.plain Sample.rawdisk)) = false
  /\ args.dump_json (Sample.with_dump_json (Sample.plain Sample.rawdisk))
     = true
  /\ snd (main (Sample.cfg true)
            (Sample.with_dump_json (Sample.plain Sample.rawdisk))) = Exit 0.
Proof.
  split; [reflexivity|]. split; [reflexivity|].
  destruct (dump_json_instead_of_sending (Sample.cfg true)
              (Sample.with_dump_json (Sample.plain Sample.rawdisk)) _ _ _
              eq_refl eq_refl eq_refl eq_refl) as [_ H].
  destruct (H [] eq_refl eq_refl) as [-> _]. reflexivity.
Defined.

(** C4 as stated fails: with [dump_json] set, a raw disk on a deployment
    with [SHARED_FILESYSTEM] false is stopped by the gate; the run ends with
    exit code 1 and nothing is printed. *)
Lemma dump_json_instead_of_sending_counterexample :
  (exists tr i e,
      intake (Sample.cfg false)
        (Sample.with_dump_json (Sample.plain Sample.rawdisk)) = (tr, Next i)
      /\ evidence_ i = Some e)
  /\ args.server (Sample.with_dump_json (Sample.plain Sample.rawdisk)) = false
  /\ args.dump_json (Sample.with_dump_json (Sample.plain Sample.rawdisk))
     = true
  /\ snd (main (Sample.cfg false)
            (Sample.with_dump_json (Sample.plain Sample.rawdisk))) = Exit 1
  /\ forallb (fun ev => negb (is_print ev))
       (fst (main (Sample.cfg false)
               (Sample.with_dump_json (Sample.plain Sample.rawdisk))))
     = true.
Proof.
  split.
  { eexists _, _, _. split; [vm_compute; reflexivity|]. by vm_compute. }
  by vm_compute.
Qed.

(** ** The evidence factory *)

Lemma or_else_falsy (o : option string) (d : string) :
  Py.truthy o = false -> Py.or_else o d = d.
Proof. by destruct o as [[|]|]. Qed.

Lemma or_else_truthy (c : ascii) (s d : string) :
  Py.or_else (Some (String c s)) d = String c s.
Proof. reflexivity. Qed.

Lemma intake_command cfg a tr i :
  intake cfg a = (tr, Next i) ->
  exists t,
    run_command cfg a (client i) = (t, Next (evidence_ i, is_cloud_disk i)).
Proof.
  intros H. destruct (intake_inv _ _ _ _ H) as (? & ? & ? & ? & tf & H').
  exists tf. tauto.
Qed.

(** C5, as the code has it: a name that is not supplied defaults to the
    variant's primary field exactly as it was given on the command line
    ([local_path] for the disk, directory and memory variants, [disk_name]
    for the cloud variants); [os.path.abspath] is applied to the stored
    [local_path], not to the name. For [rawdisk] the evidence is a
    [RawDisk] with these two fields and it is not [cloud_only]. The name
    coincides with the normalized path exactly when the path given is
    already absolute and normalized. *)
Theorem defaulted_name cfg a tr i e :
  intake cfg a = (tr, Next i) -> evidence_ i = Some e ->
  Py.truthy (cmd_name (args.command a)) = false ->
  (forall lp mp src n,
      args.command a = CmdRawDisk lp mp src n ->
      e = RawDisk lp (PosixPath.abspath (config.os_getcwd cfg) lp) mp src
      /\ evidence.cloud_only e = false)
  /\ (forall lp,
         cmd_local_path (args.command a) = Some lp ->
         evidence.name e = lp
         /\ evidence.local_path e
            = Some (PosixPath.abspath (config.os_getcwd cfg) lp)
         /\ (evidence.name e = PosixPath.abspath (config.os_getcwd cfg) lp
             <-> PosixPath.abspath (config.os_getcwd cfg) lp = lp))
  /\ (forall d,
         cmd_disk_name (args.command a) = Some d ->
         evidence.name e = d /\ evidence.disk_name e = Some d).
Proof.
  intros Hi He Hn. destruct (intake_command _ _ _ _ Hi) as [t Hc].
  rewrite He in Hc. unfold run_command, construct, abspath in Hc.
  destruct (args.command a); simpl in Hn;
    try solve [repeat bind_inv' Hc; discriminate];
    try solve [unfold raise in Hc; discriminate];
    simpl in Hc;
    repeat match type of Hc with
      | context [if ?c then _ else _] => destruct c; simpl in Hc
      end;
    try discriminate;
    rewrite (or_else_falsy _ _ Hn) in Hc; injection Hc as _ <- _;
    (split; [|split]); simpl;
    try (intros ? ? ? ? [= <- <- <- <-]); try (intros ? [= <-]);
    try done;
    repeat split; congruence.
Qed.

Lemma defaulted_name_witness :
  Py.truthy (cmd_name (args.command (Sample.plain Sample.rawdisk))) = false
  /\ exists e,
      option_map evidence_
        (match intake (Sample.cfg true) (Sample.plain Sample.rawdisk) with
         | (_, Next i) => Some i
         | _ => None
         end) = Some (Some e)
      /\ evidence.name e = "/data/img.dd"
      /\ evidence.local_path e = Some "/data/img.dd".
Proof.
  split; [reflexivity|]. eexists. split; [vm_compute; reflexivity|].
  destruct (defaulted_name (Sample.cfg true) (Sample.plain Sample.rawdisk)
              _ _ _ eq_refl eq_refl eq_refl) as (_ & H & _).
  destruct (H "/data/img.dd" eq_refl) as (Hname & Hpath & _).
  split; [exact Hname | exact Hpath].
Defined.

(** C5 as stated fails: [rawdisk -l img.dd] run in [/home/analyst] builds
    evidence named [img.dd], while the normalized path, which is what the
    evidence stores as [local_path], is [/home/analyst/img.dd]. *)
Lemma defaulted_name_counterexample :
  cmd_name (args.command (Sample.plain Sample.rawdisk_relative)) = None
  /\ cmd_local_path (args.command (Sample.plain Sample.rawdisk_relative))
     = Some "img.dd"
  /\ PosixPath.abspath (config.os_getcwd (Sample.cfg true)) "img.dd"
     = "/home/analyst/img.dd"
  /\ exists tr i,
      intake (Sample.cfg true) (Sample.plain Sample.rawdisk_relative)
      = (tr, Next i)
      /\ evidence_ i
         = Some (RawDisk "img.dd" "/home/analyst/img.dd" 1 None)
      /\ evidence.name (RawDisk "img.dd" "/home/analyst/img.dd" 1 None)
         <> PosixPath.abspath (config.os_getcwd (Sample.cfg true)) "img.dd".
Proof.
  split; [reflexivity|]. split; [reflexivity|]. split; [by vm_compute|].
  eexists _, _. split; [vm_compute; reflexivity|]. split; [reflexivity|].
  by vm_compute.
Qed.

(** ** Every request of a run *)

Lemma dispatch_value cfg a cl ev fp t x :
  dispatch cfg a cl ev fp = (t, Next x) ->
  x = None \/ exists e, ev = Some e /\ x = Some (build_request cfg a e fp).
Proof.
  unfold dispatch. destruct ev as [e|]; [|intros [= _ <-]; by left].
  destruct (args.server a).
  - intros H. repeat bind_inv' H. injection H as _ <-. by left.
  - intros H. repeat bind_inv' H. injection H as _ <-. right. eauto.
Qed.

Section Requests.

Variable cfg : config.t.
Variable a : args.t.
Variable Q : request.t -> Prop.

Hypothesis Q_new :
  Q (TurbiniaRequest cfg (args.request_id a) (config.getpass_getuser cfg)).

Lemma process_requests (i : Intake) :
  (forall e, Q (build_request cfg a e (filter_patterns i))) ->
  always (all_requests Q) (process cfg a i).
Proof.
  intros Q_built. unfold process.
  apply always_bind; [|intros _ _ _; apply always_bind; [|intros _ _ _]].
  - unfold compatibility_gate. always_auto; constructor.
  - unfold project_check. always_auto; constructor.
  - unfold dispatch_and_finish. apply always_bind.
    + unfold dispatch. always_auto; unfold all_requests; simpl;
        repeat constructor; auto.
    + intros t x Hx. unfold finish.
      destruct (dispatch_value _ _ _ _ _ _ _ Hx) as [->|(e & _ & ->)];
        always_auto; unfold all_requests; simpl; repeat constructor; auto.
Qed.

Lemma main_requests :
  (forall tr i e,
      intake cfg a = (tr, Next i) ->
      Q (build_request cfg a e (filter_patterns i))) ->
  Forall Q (requests_of (fst (main cfg a))).
Proof.
  intros Q_built. pose proof (intake_no_request cfg a) as Hn.
  unfold always in Hn.
  destruct (intake cfg a) as [tr [i|o]] eqn:Hi; simpl in Hn.
  - rewrite (main_after_intake _ _ _ _ Hi).
    replace (fst (run _)) with (tr ++ fst (process cfg a i))%list
      by (by destruct (snd (process cfg a i)) as [[]|]).
    rewrite requests_of_app, (requests_of_none _ Hn). simpl.
    apply requests_of_elem, process_requests. eauto.
  - rewrite (main_intake_stop _ _ _ _ Hi). simpl.
    rewrite (requests_of_none _ Hn). constructor.
Qed.

End Requests.

(** ** Job filters *)

Lemma new_request_recipe cfg rid user (key : string) :
  request.recipe (TurbiniaRequest cfg rid user) !! key = None.
Proof. apply lookup_empty. Qed.

Lemma set_log_level_next cfg a :
  exists l,
    set_log_level cfg a
    = ([SetLevel l; Log INFO (MsgVersion (config.version cfg))], Next tt).
Proof.
  unfold set_log_level. destruct (args.quiet a), (args.debug a); eauto.
Qed.

Lemma built_request_filters cfg a tr i e :
  intake cfg a = (tr, Next i) ->
  ~ carries_both_filters (build_request cfg a e (filter_patterns i)).
Proof.
  intros Hi (b & w & Hb & Hbne & Hw & Hwne).
  destruct (intake_inv _ _ _ _ Hi) as (? & ? & ? & ? & ? & _ & Hf & _).
  apply check_job_filters_next in Hf as [_ Hf].
  destruct (build_request_recipe cfg a e (filter_patterns i)) as (_ & Hb' & Hw').
  rewrite Hb' in Hb. rewrite Hw' in Hw.
  destruct (args.jobs_blacklist a), (args.jobs_whitelist a);
    simpl in *; congruence.
Qed.

Lemma main_filter_conflict cfg a :
  args.jobs_whitelist a <> [] -> args.jobs_blacklist a <> [] ->
  main cfg a
  = ((fst (set_log_level cfg a) ++ [Log ERROR MsgFilterConflict])%list,
     Exit 1).
Proof.
  intros Hw Hb. destruct (set_log_level_next cfg a) as [l Hl].
  unfold main, main_body, intake, check_job_filters. rewrite Hl.
  destruct (args.jobs_whitelist a), (args.jobs_blacklist a);
    try congruence. reflexivity.
Qed.

(** C6: when both job filters are non-empty the run ends with exit code 1
    on the filter check, right after the log level is set and before any
    evidence is constructed; and no request that any run creates, prints,
    sends or hands to a local task has both a non-empty [jobs_blacklist]
    and a non-empty [jobs_whitelist] in its recipe. *)
Theorem job_filters_exclusive cfg a :
  (args.jobs_whitelist a <> [] -> args.jobs_blacklist a <> [] ->
   main cfg a
   = ((fst (set_log_level cfg a) ++ [Log ERROR MsgFilterConflict])%list,
      Exit 1)
   /\ Forall (fun ev => is_new_evidence ev = false) (fst (main cfg a)))
  /\ Forall (fun r => ~ carries_both_filters r)
       (requests_of (fst (main cfg a))).
Proof.
  split.
  - intros Hw Hb. rewrite (main_filter_conflict _ _ Hw Hb).
    split; [reflexivity|].
    destruct (set_log_level_next cfg a) as [l ->]. by repeat constructor.
  - apply main_requests.
    + intros (b & _ & Hb & _). by rewrite new_request_recipe in Hb.
    + intros tr i e Hi. by apply (built_request_filters _ _ tr).
Qed.

Lemma job_filters_exclusive_witness :
  ["StringsJob"] <> [] /\ ["GrepJob"] <> []
  /\ snd (main (Sample.cfg true)
            (Sample.with_filters None ["StringsJob"] ["GrepJob"]
               (Sample.plain Sample.rawdisk))) = Exit 1.
Proof.
  split; [discriminate|]. split; [discriminate|].
  destruct (job_filters_exclusive (Sample.cfg true)
              (Sample.with_filters None ["StringsJob"] ["GrepJob"]
                 (Sample.plain Sample.rawdisk))) as [H _].
  destruct (H ltac:(discriminate) ltac:(discriminate)) as [-> _].
  reflexivity.
Defined.

(** ** The filter patterns file *)

Lemma check_job_filters_cases a :
  check_job_filters a = ([Log ERROR MsgFilterConflict], Stop (Exit 1))
  \/ check_job_filters a = ret tt.
Proof. unfold check_job_filters. destruct (_ && _)%bool; auto. Qed.

Lemma built_request_no_patterns cfg a e :
  request.recipe (build_request cfg a e None) !! "filter_patterns" = None.
Proof. by destruct (build_request_recipe cfg a e None) as [-> _]. Qed.

(** C7: when [filter_patterns_file] names a file that does not exist the
    run ends with exit code 1 (on the missing file, unless the job filter
    check has already ended it); when the file exists and reading it raises
    [IOError], the only effect is one warning: the run goes on exactly as
    it would with no patterns loaded, and no request of the run has a
    [filter_patterns] entry in its recipe. *)
Theorem filter_patterns_file_tiers cfg a file :
  args.filter_patterns_file a = Some file -> file <> EmptyString ->
  (config.os_path_exists cfg file = false ->
   snd (main cfg a) = Exit 1
   /\ (check_job_filters a = ret tt ->
       main cfg a
       = ((fst (set_log_level cfg a) ++ [Log ERROR MsgFilterFileMissing])%list,
          Exit 1)))
  /\ (forall e,
         config.os_path_exists cfg file = true ->
         config.open_read_splitlines cfg file = IOError e ->
         load_filter_patterns cfg a
         = ([Log WARNING (MsgCannotOpen file e)], Next None)
         /\ main cfg a
            = run (set_log_level cfg a ;;
                   check_job_filters a ;;
                   log WARNING (MsgCannotOpen file e) ;;
                   i <- intake_with cfg a None ;;
                   process cfg a i)
         /\ Forall (fun r => request.recipe r !! "filter_patterns" = None)
              (requests_of (fst (main cfg a)))).
Proof.
  intros Hfile Hne. destruct file as [|c s]; [congruence|]. clear Hne.
  destruct (set_log_level_next cfg a) as [l Hl]. split.
  - intros Hex.
    assert (load_filter_patterns cfg a
            = ([Log ERROR MsgFilterFileMissing], Stop (Exit 1))) as Hload.
    { unfold load_filter_patterns. by rewrite Hfile, Hex. }
    unfold main, main_body, intake. rewrite Hl.
    destruct (check_job_filters_cases a) as [-> | ->].
    + split; [reflexivity | discriminate].
    + rewrite Hload. split; reflexivity.
  - intros e Hex Hread.
    assert (load_filter_patterns cfg a
            = ([Log WARNING (MsgCannotOpen (String c s) e)], Next None))
      as Hload.
    { unfold load_filter_patterns. by rewrite Hfile, Hex, Hread. }
    split; [exact Hload|]. split.
    + unfold main, main_body, intake. rewrite Hl, Hload.
      destruct (check_job_filters_cases a) as [-> | ->]; [reflexivity|].
      simpl. destruct (intake_with cfg a None) as [t [i|o]]; simpl;
        [|reflexivity].
      by destruct (process cfg a i) as [t' [[]|o]].
    + apply main_requests; [apply new_request_recipe|].
      intros tr i ev Hi.
      destruct (intake_inv _ _ _ _ Hi) as (? & ? & ? & ? & ? & _ & _ & Hc & _).
      rewrite Hload in Hc. injection Hc as _ <-.
      apply built_request_no_patterns.
Qed.

Lemma filter_patterns_file_tiers_witness :
  config.os_path_exists (Sample.cfg true) "/etc/patterns.txt" = true
  /\ config.os_path_exists (Sample.cfg true) "/no/such/file" = false
  /\ snd (main (Sample.cfg true)
            (Sample.with_filters (Some "/no/such/file") [] []
               (Sample.plain Sample.rawdisk))) = Exit 1
  /\ load_filter_patterns (Sample.cfg true)
       (Sample.with_filters (Some "/etc/patterns.txt") [] []
          (Sample.plain Sample.rawdisk))
     = ([Log WARNING (MsgCannotOpen "/etc/patterns.txt" "Permission denied")],
        Next None).
Proof.
  split; [reflexivity|]. split; [reflexivity|]. split.
  - destruct (filter_patterns_file_tiers (Sample.cfg true)
                (Sample.with_filters (Some "/no/such/file") [] []
                   (Sample.plain Sample.rawdisk)) "/no/such/file"
                eq_refl ltac:(discriminate)) as [H _].
    exact (proj1 (H eq_refl)).
  - destruct (filter_patterns_file_tiers (Sample.cfg true)
                (Sample.with_filters (Some "/etc/patterns.txt") [] []
                   (Sample.plain Sample.rawdisk)) "/etc/patterns.txt"
                eq_refl ltac:(discriminate)) as [_ H].
    exact (proj1 (H "Permission denied" eq_refl eq_refl)).
Defined.

(** ** Local runs *)

Lemma last_app_some {A} (l1 l2 : list A) (x : A) :
  last l2 = Some x -> last (l1 ++ l2) = Some x.
Proof. intros H. by rewrite last_app, H. Qed.

(** C8, as the code has it: with [run_local] set, [cloud_only] evidence
    built and [dump_json] not set, the run ends with exit code 1 and the
    local task is never run; when the evidence passes the compatibility
    gate and the project check, what ends the run is the error that
    [--run_local] cannot be used with cloud only evidence. A task name is
    always present here: without one the run ends before the evidence is
    built. *)
Theorem run_local_cloud_only cfg a tr i e :
  intake cfg a = (tr, Next i) -> evidence_ i = Some e ->
  args.run_local a = true -> evidence.cloud_only e = true ->
  args.dump_json a = false ->
  snd (main cfg a) = Exit 1
  /\ Py.truthy (args.task a) = true
  /\ Forall (fun ev => is_run_local_task ev = false) (fst (main cfg a))
  /\ (forall w,
         compatibility_gate cfg a (Some e) = ret tt ->
         project_check cfg a (Some e) (is_cloud_disk i) = (w, Next tt) ->
         last (fst (main cfg a)) = Some (Log ERROR MsgRunLocalCloudOnly)).
Proof.
  intros Hi He Hr Hc Hd.
  destruct (intake_evidence _ _ _ _ _ Hi He)
    as (Hcd & Hp & [c Hcl] & Hrl & _ & _).
  destruct (Hp Hc) as [p Hproj]. destruct (Hrl Hr) as [Hs Ht].
  assert (dispatch_and_finish cfg a i
          = (fst (dispatch_and_finish cfg a i), Stop (Exit 1))
          /\ last (fst (dispatch_and_finish cfg a i))
             = Some (Log ERROR MsgRunLocalCloudOnly)
          /\ always (fun ev => is_run_local_task ev = false)
               (dispatch_and_finish cfg a i)) as (Hdf & Hlast & Hnever).
  { unfold dispatch_and_finish, dispatch, finish, always.
    rewrite He, Hcl, Hs, Hd, Hr, Hc.
    destruct (args.wait a); simpl; repeat split; by repeat constructor. }
  split; [|split; [exact Ht|split]].
  - rewrite (main_after_intake _ _ _ _ Hi). unfold process.
    rewrite He, Hcd, Hc, Hdf.
    unfold compatibility_gate, project_check. simpl. rewrite Hc, Hproj.
    destruct (args.force_evidence a), (config.SHARED_FILESYSTEM cfg),
      (String.eqb p (config.TURBINIA_PROJECT cfg)); reflexivity.
  - rewrite (main_after_intake _ _ _ _ Hi). apply (always_run _ (_, _)).
    unfold always. simpl. apply Forall_app. split.
    + pose proof (intake_no_local_task cfg a) as Hn. unfold always in Hn.
      by rewrite Hi in Hn.
    + unfold process. apply always_bind; [|intros _ _ _; apply always_bind].
      * unfold compatibility_gate. always_auto.
      * unfold project_check. always_auto.
      * intros _ _ _. exact Hnever.
  - intros w Hg Hpc. rewrite <- He in Hg, Hpc.
    rewrite (main_after_checks _ _ _ _ _ Hi Hg Hpc). rewrite Hdf. simpl.
    by apply last_app_some.
Qed.

Lemma run_local_cloud_only_witness :
  args.run_local
    (Sample.with_run_local "PlasoTask"
       (Sample.plain Sample.clouddisk_same_project)) = true
  /\ args.dump_json
       (Sample.with_run_local "PlasoTask"
          (Sample.plain Sample.clouddisk_same_project)) = false
  /\ snd (main (Sample.cfg false)
            (Sample.with_run_local "PlasoTask"
               (Sample.plain Sample.clouddisk_same_project))) = Exit 1.
Proof.
  split; [reflexivity|]. split; [reflexivity|].
  exact (proj1 (run_local_cloud_only (Sample.cfg false)
                  (Sample.with_run_local "PlasoTask"
                     (Sample.plain Sample.clouddisk_same_project))
                  _ _ _ eq_refl eq_refl eq_refl eq_refl eq_refl)).
Defined.

(** C8 as stated fails: with [dump_json] also set, the run of a cloud disk
    with [run_local] and a task name prints the request and ends with exit
    code 0. *)
Lemma run_local_cloud_only_counterexample :
  (exists tr i e,
      intake (Sample.cfg false)
        (Sample.with_dump_json
           (Sample.with_run_local "PlasoTask"
              (Sample.plain Sample.clouddisk_same_project))) = (tr, Next i)
      /\ evidence_ i = Some e /\ evidence.cloud_only e = true)
  /\ args.run_local
       (Sample.with_dump_json
          (Sample.with_run_local "PlasoTask"
             (Sample.plain Sample.clouddisk_same_project))) = true
  /\ snd (main (Sample.cfg false)
            (Sample.with_dump_json
               (Sample.with_run_local "PlasoTask"
                  (Sample.plain Sample.clouddisk_same_project)))) = Exit 0.
Proof.
  split.
  { eexists _, _, _. split; [vm_compute; reflexivity|]. by vm_compute. }
  by vm_compute.
Qed.

(** ** The status command *)

Lemma make_client_status cfg a close days force prio full task_id user :
  args.command a = CmdStatus close days force prio full task_id user ->
  exists c, make_client cfg a = ([LoadConfig; NewClient c], Next (Some c)).
Proof. intros H. unfold make_client. rewrite H. simpl. eauto. Qed.

Lemma check_run_local_off a :
  args.run_local a = false -> exists t, check_run_local a = (t, Next tt).
Proof.
  intros H. unfold check_run_local. rewrite H. simpl.
  destruct (args.output_dir a) as [[|]|], (args.log_file a) as [[|]|];
    simpl; eauto.
Qed.

Lemma front_never_waits cfg a :
  always (fun ev => is_wait_for_request ev = false) (set_log_level cfg a)
  /\ always (fun ev => is_wait_for_request ev = false)
       (load_filter_patterns cfg a)
  /\ always (fun ev => is_wait_for_request ev = false) (make_client cfg a)
  /\ always (fun ev => is_wait_for_request ev = false) (check_run_local a).
Proof.
  unfold set_log_level, load_filter_patterns, make_client, check_run_local.
  repeat split; always_auto.
Qed.

(** C9, as the code has it: a [status] invocation with [wait] set and no
    request id, that does not ask to close tasks, has passed the checks of
    the job filters and of the filter patterns file and does not set
    [run_local], never calls [wait_for_request]; it logs that [--wait]
    requires [--request_id], prints the task status and exits with 0. *)
Theorem status_wait_without_request_id cfg a days force prio full task_id user
    w fp :
  args.command a = CmdStatus false days force prio full task_id user ->
  args.wait a = true -> Py.truthy (args.request_id a) = false ->
  check_job_filters a = ret tt ->
  load_filter_patterns cfg a = (w, Next fp) ->
  args.run_local a = false ->
  let c := format_task_status (config.INSTANCE_ID cfg)
             (config.TURBINIA_PROJECT cfg) (config.TURBINIA_REGION cfg)
             (Some days) task_id (args.request_id a) user (args.all_fields a)
             (Some full) (Some prio) in
  main cfg a
  = ((fst (set_log_level cfg a) ++ w ++ fst (make_client cfg a)
      ++ fst (check_run_local a)
      ++ [Log INFO MsgWaitNeedsRequestId; Call c; Print (ResultOf c);
          Log INFO MsgDone])%list,
     Exit 0)
  /\ Forall (fun ev => is_wait_for_request ev = false) (fst (main cfg a)).
Proof.
  intros Hcmd Hwait Hrid Hcheck Hload Hrl c.
  destruct (set_log_level_next cfg a) as [l Hl].
  destruct (make_client_status cfg a _ _ _ _ _ _ _ Hcmd) as [cl Hcl].
  destruct (check_run_local_off a Hrl) as [tc Hcrl].
  assert (main cfg a
          = ((fst (set_log_level cfg a) ++ w ++ fst (make_client cfg a)
              ++ fst (check_run_local a)
              ++ [Log INFO MsgWaitNeedsRequestId; Call c; Print (ResultOf c);
                  Log INFO MsgDone])%list,
             Exit 0)) as Hmain.
  { unfold main, main_body, intake, intake_with.
    rewrite Hl, Hcheck, Hload, Hcl, Hcrl.
    unfold run_command, status. rewrite Hcmd, Hwait, Hrid.
    unfold process, dispatch_and_finish, finish. simpl. rewrite Hrl.
    repeat (progress (simpl; rewrite <- ?app_assoc)). reflexivity. }
  split; [exact Hmain|]. rewrite Hmain. simpl.
  destruct (front_never_waits cfg a) as (H1 & H2 & H3 & H4).
  unfold always in *. rewrite Hload in H2.
  repeat apply Forall_app_2; try done. by repeat constructor.
Qed.

Lemma status_wait_without_request_id_witness :
  args.wait (Sample.with_wait (Sample.plain Sample.status_plain)) = true
  /\ Py.truthy
       (args.request_id (Sample.with_wait (Sample.plain Sample.status_plain)))
     = false
  /\ snd (main (Sample.cfg true)
            (Sample.with_wait (Sample.plain Sample.status_plain))) = Exit 0.
Proof.
  split; [reflexivity|]. split; [reflexivity|].
  destruct (status_wait_without_request_id (Sample.cfg true)
              (Sample.with_wait (Sample.plain Sample.status_plain))
              0 false 20 false None None [] None
              eq_refl eq_refl eq_refl eq_refl eq_refl eq_refl) as [-> _].
  reflexivity.
Defined.

(** C9 as stated fails: [status -c] with [wait] set and neither a request
    id, a task id nor a user ends with exit code 1, without the note about
    [--wait] and without printing the task status. *)
Lemma status_wait_without_request_id_counterexample :
  args.command (Sample.with_wait (Sample.plain Sample.status_close))
  = CmdStatus true 0 false 20 false None None
  /\ args.wait (Sample.with_wait (Sample.plain Sample.status_close)) = true
  /\ args.request_id (Sample.with_wait (Sample.plain Sample.status_close))
     = None
  /\ main (Sample.cfg true) (Sample.with_wait (Sample.plain Sample.status_close))
     = ([SetLevel INFO; Log INFO (MsgVersion "20190819"); LoadConfig;
         NewClient (TurbiniaClient false);
         Log INFO MsgCloseTasksNeedsSelector],
        Exit 1).
Proof. repeat split; by vm_compute. Qed.

(** ** [csv_list] as the type of the job filter options *)

Lemma csv_list_truthy (s : string) : Py.nonempty (csv_list s) = true.
Proof.
  pose proof (split_not_nil comma s) as H. unfold csv_list.
  by destruct (Py.split comma s).
Qed.

(** C10: for every string, [csv_list] returns its comma-split list -- the
    one list of comma-free pieces that joins back to the string with
    commas -- and that list is never empty; the empty string gives the
    one-element list holding the empty string, which is truthy, so that a
    run whose two job filter options went through [csv_list], one of them
    with the empty string, ends on the check that refuses both filters. *)
Theorem csv_list_never_empty :
  (forall s,
      is_comma_split s (csv_list s)
      /\ (forall l, is_comma_split s l -> l = csv_list s)
      /\ csv_list s <> []
      /\ Py.nonempty (csv_list s) = true)
  /\ csv_list EmptyString = [EmptyString]
  /\ (forall cfg a given,
         (args.jobs_whitelist a = csv_list EmptyString
          /\ args.jobs_blacklist a = csv_list given)
         \/ (args.jobs_whitelist a = csv_list given
             /\ args.jobs_blacklist a = csv_list EmptyString) ->
         main cfg a
         = ((fst (set_log_level cfg a) ++ [Log ERROR MsgFilterConflict])%list,
            Exit 1)).
Proof.
  split; [|split].
  - intros s. split; [apply csv_list_is_comma_split|].
    split; [apply comma_split_unique|].
    split; [apply split_not_nil | apply csv_list_truthy].
  - reflexivity.
  - intros cfg a given [[Hw Hb] | [Hw Hb]];
      apply main_filter_conflict; rewrite ?Hw, ?Hb;
      first [discriminate | apply split_not_nil].
Qed.

Lemma csv_list_never_empty_witness :
  args.jobs_whitelist
    (Sample.with_filters None (csv_list EmptyString) (csv_list "GrepJob")
       (Sample.plain Sample.rawdisk)) = csv_list EmptyString
  /\ snd (main (Sample.cfg true)
            (Sample.with_filters None (csv_list EmptyString)
               (csv_list "GrepJob") (Sample.plain Sample.rawdisk)))
     = Exit 1.
Proof.
  split; [reflexivity|].
  destruct csv_list_never_empty as (_ & _ & H).
  rewrite (H (Sample.cfg true)
             (Sample.with_filters None (csv_list EmptyString)
                (csv_list "GrepJob") (Sample.plain Sample.rawdisk))
             "GrepJob" (or_introl (conj eq_refl eq_refl))).
  reflexivity.
Defined.

(** * Further properties of [main] *)

(** ** Runs that end in the checks before the command *)

Lemma stops_with_bind_l {A B} code P (m : M A) (f : A -> M B) :
  stops_with code P m -> stops_with code P (bind m f).
Proof. intros (t & -> & Ht). by exists t. Qed.

Lemma stops_with_bind_r {A B} code P (m : M A) (f : A -> M B) :
  goes_on P m ->
  (forall t x, m = (t, Next x) -> stops_with code P (f x)) ->
  stops_with code P (bind m f).
Proof.
  intros (t & x & Hm & Ht) Hf. destruct (Hf t x Hm) as (t' & Hfx & Ht').
  exists (t ++ t')%list. split.
  - rewrite (bind_next _ _ _ _ Hm), Hfx. reflexivity.
  - by apply Forall_app.
Qed.

Lemma stops_with_bind {A B} code P (m : M A) (f : A -> M B) :
  stops_with code P m \/ goes_on P m ->
  (forall t x, m = (t, Next x) -> stops_with code P (f x)) ->
  stops_with code P (bind m f).
Proof.
  intros [H|H] Hf; [by apply stops_with_bind_l | by apply stops_with_bind_r].
Qed.

Lemma stops_with_main code P cfg a :
  stops_with code P (intake cfg a) ->
  snd (main cfg a) = Exit code /\ Forall P (fst (main cfg a)).
Proof.
  intros (t & H & Ht). by rewrite (main_intake_stop _ _ _ _ H).
Qed.

Lemma set_log_level_goes_on cfg a : goes_on quiet_event (set_log_level cfg a).
Proof.
  destruct (set_log_level_next cfg a) as [l ->].
  eexists _, _. split; [reflexivity|]. by repeat constructor.
Qed.

Lemma check_job_filters_quiet a :
  stops_with 1 quiet_event (check_job_filters a)
  \/ goes_on quiet_event (check_job_filters a).
Proof.
  destruct (check_job_filters_cases a) as [-> | ->]; [left|right].
  - eexists. split; [reflexivity|]. by repeat constructor.
  - eexists _, _. split; [reflexivity|]. constructor.
Qed.

Lemma load_filter_patterns_quiet cfg a :
  stops_with 1 quiet_event (load_filter_patterns cfg a)
  \/ goes_on quiet_event (load_filter_patterns cfg a).
Proof.
  unfold load_filter_patterns.
  destruct (args.filter_patterns_file a) as [[|c s]|];
    try (right; eexists _, _; split; [reflexivity|constructor]).
  destruct (negb _).
  - left. eexists. split; [reflexivity|]. by repeat constructor.
  - right. destruct (config.open_read_splitlines _ _);
      eexists _, _; (split; [reflexivity|]); by repeat constructor.
Qed.

Lemma make_client_goes_on cfg a : goes_on quiet_event (make_client cfg a).
Proof.
  unfold make_client.
  destruct (args.command a); eexists _, _; (split; [reflexivity|]);
    by repeat constructor.
Qed.

Lemma check_run_local_quiet a :
  stops_with 1 quiet_event (check_run_local a)
  \/ goes_on quiet_event (check_run_local a).
Proof.
  unfold check_run_local.
  destruct (_ && (_ || _))%bool.
  { left. eexists. split; [reflexivity|]. by repeat constructor. }
  destruct (_ && negb _)%bool.
  { left. eexists. split; [reflexivity|]. by repeat constructor. }
  right.
  destruct (args.output_dir a) as [[|]|], (args.log_file a) as [[|]|];
    eexists _, _; (split; [reflexivity|]); by repeat constructor.
Qed.

(** The run ends with exit code 1, and nothing but logging and set-up has
    happened, as soon as [check_run_local] ends it. *)
Lemma intake_stops_in_check_run_local cfg a :
  stops_with 1 quiet_event (check_run_local a) ->
  stops_with 1 quiet_event (intake cfg a).
Proof.
  intros H. unfold intake, intake_with.
  apply stops_with_bind_r; [apply set_log_level_goes_on | intros ? ? ?].
  apply stops_with_bind; [apply check_job_filters_quiet | intros ? ? ?].
  apply stops_with_bind; [apply load_filter_patterns_quiet | intros ? ? ?].
  apply stops_with_bind_r; [apply make_client_goes_on | intros ? ? ?].
  by apply stops_with_bind_l.
Qed.

(** The same when the branch of the command ends it. *)
Lemma intake_stops_in_command cfg a :
  (forall cl, stops_with 1 quiet_event (run_command cfg a cl)) ->
  stops_with 1 quiet_event (intake cfg a).
Proof.
  intros H. unfold intake, intake_with.
  apply stops_with_bind_r; [apply set_log_level_goes_on | intros ? ? ?].
  apply stops_with_bind; [apply check_job_filters_quiet | intros ? ? ?].
  apply stops_with_bind; [apply load_filter_patterns_quiet | intros ? ? ?].
  apply stops_with_bind_r; [apply make_client_goes_on | intros ? cl ?].
  apply stops_with_bind; [apply check_run_local_quiet | intros ? ? ?].
  by apply stops_with_bind_l.
Qed.

(** X1: [--run_local] without a task name always ends the run with exit
    code 1, whatever the command and the other options are, and before
    anything is done: no evidence is built, no worker or server is started,
    the client is not called and nothing is printed. *)
Theorem run_local_requires_task cfg a :
  args.run_local a = true -> Py.truthy (args.task a) = false ->
  snd (main cfg a) = Exit 1
  /\ Forall (fun ev => is_action ev = false) (fst (main cfg a)).
Proof.
  intros Hr Ht. apply stops_with_main, intake_stops_in_check_run_local.
  unfold check_run_local. rewrite Hr, Ht.
  destruct (server_flags_set a || worker_flags_set a)%bool;
    eexists; (split; [reflexivity|]); by repeat constructor.
Qed.

Lemma run_local_requires_task_witness :
  args.run_local (More.with_run_local_only (Sample.plain Sample.rawdisk))
  = true
  /\ snd (main (Sample.cfg true)
            (More.with_run_local_only (Sample.plain Sample.rawdisk)))
     = Exit 1.
Proof.
  split; [reflexivity|].
  exact (proj1 (run_local_requires_task (Sample.cfg true)
                  (More.with_run_local_only (Sample.plain Sample.rawdisk))
                  eq_refl eq_refl)).
Defined.

(** X2: [--run_local] together with [--server], or with the [server],
    [psqworker] or [celeryworker] command, always ends the run with exit
    code 1 before any server or worker is started and before any evidence
    is built. *)
Theorem run_local_excludes_server_and_workers cfg a :
  args.run_local a = true ->
  args.server a = true
  \/ args.command a = CmdServer
  \/ (exists st, args.command a = CmdPsqWorker st)
  \/ args.command a = CmdCeleryWorker ->
  snd (main cfg a) = Exit 1
  /\ Forall (fun ev => is_action ev = false) (fst (main cfg a)).
Proof.
  intros Hr Hs. apply stops_with_main, intake_stops_in_check_run_local.
  assert ((server_flags_set a || worker_flags_set a)%bool = true) as Hf.
  { unfold server_flags_set, worker_flags_set.
    destruct Hs as [-> | [-> | [[st ->] | ->]]]; simpl;
      by rewrite ?orb_true_r. }
  unfold check_run_local. rewrite Hr, Hf.
  eexists. split; [reflexivity|]. by repeat constructor.
Qed.

Lemma run_local_excludes_server_and_workers_witness :
  args.run_local (Sample.with_run_local "PlasoTask" (Sample.plain CmdServer))
  = true
  /\ snd (main (Sample.cfg true)
            (Sample.with_run_local "PlasoTask" (Sample.plain CmdServer)))
     = Exit 1.
Proof.
  split; [reflexivity|].
  exact (proj1 (run_local_excludes_server_and_workers (Sample.cfg true)
                  (Sample.with_run_local "PlasoTask" (Sample.plain CmdServer))
                  eq_refl (or_intror (or_introl eq_refl)))).
Defined.

(** ** Encrypted disks *)

(** X3: an [apfs] or [bitlocker] command with neither a password nor a
    recovery key always ends the run with exit code 1 before any evidence
    is built; and whenever such a command gets past the intake, one of the
    two was given and the evidence built carries both values exactly as
    they were given, next to the normalized path. *)
Theorem encrypted_disk_requires_credential cfg a lp rk pw src n :
  args.command a = CmdApfs lp rk pw src n
  \/ args.command a = CmdBitlocker lp rk pw src n ->
  (Py.truthy pw = false -> Py.truthy rk = false ->
   snd (main cfg a) = Exit 1
   /\ Forall (fun ev => is_action ev = false) (fst (main cfg a)))
  /\ (forall tr i,
         intake cfg a = (tr, Next i) ->
         (Py.truthy pw = true \/ Py.truthy rk = true)
         /\ (args.command a = CmdApfs lp rk pw src n ->
             evidence_ i
             = Some (APFSEncryptedDisk (Py.or_else n lp)
                       (PosixPath.abspath (config.os_getcwd cfg) lp)
                       rk pw src))
         /\ (args.command a = CmdBitlocker lp rk pw src n ->
             evidence_ i
             = Some (BitlockerDisk (Py.or_else n lp)
                       (PosixPath.abspath (config.os_getcwd cfg) lp)
                       rk pw src))).
Proof.
  intros Hcmd. split.
  - intros Hpw Hrk. apply stops_with_main, intake_stops_in_command.
    intros cl. unfold run_command.
    destruct Hcmd as [-> | ->]; rewrite Hpw, Hrk; simpl;
      eexists; (split; [reflexivity|]); by repeat constructor.
  - intros tr i Hi. destruct (intake_command _ _ _ _ Hi) as [t Hc].
    unfold run_command, construct, abspath in Hc.
    destruct Hcmd as [Hcmd | Hcmd]; rewrite Hcmd in Hc;
      destruct (Py.truthy pw), (Py.truthy rk); simpl in Hc;
      try discriminate; injection Hc as _ <- _;
      (split; [auto|]); split; intros H0; (reflexivity || congruence).
Qed.

Lemma encrypted_disk_requires_credential_witness :
  snd (main (Sample.cfg true) (Sample.plain More.apfs_bare)) = Exit 1
  /\ exists tr i,
      intake (Sample.cfg true) (Sample.plain More.apfs_password)
      = (tr, Next i)
      /\ evidence_ i
         = Some (APFSEncryptedDisk "/data/mac.dmg" "/data/mac.dmg" None
                   (Some "hunter2") None).
Proof.
  split.
  - destruct (encrypted_disk_requires_credential (Sample.cfg true)
                (Sample.plain More.apfs_bare) "/data/mac.dmg" None None None
                None (or_introl eq_refl)) as [H _].
    exact (proj1 (H eq_refl eq_refl)).
  - eexists _, _. split; [vm_compute; reflexivity|].
    destruct (encrypted_disk_requires_credential (Sample.cfg true)
                (Sample.plain More.apfs_password) "/data/mac.dmg" None
                (Some "hunter2") None None (or_introl eq_refl)) as [_ H].
    destruct (H _ _ eq_refl) as (_ & H' & _). exact (H' eq_refl).
Defined.

(** ** Runs without evidence *)

Lemma run_command_no_evidence cfg a cl t b :
  run_command cfg a cl = (t, Next (None, b)) -> b = false.
Proof.
  unfold run_command, construct. intros H.
  destruct (args.command a);
    try solve [repeat bind_inv' H; unfold ret in H; by injection H as _ <-];
    try solve [unfold raise in H; discriminate];
    simpl in H;
    repeat match type of H with
      | context [if ?c then _ else _] => destruct c; simpl in H
      end;
    discriminate.
Qed.

Lemma process_without_evidence cfg a i :
  evidence_ i = None -> is_cloud_disk i = false ->
  process cfg a i
  = if args.run_local a
    then ([Log ERROR MsgEvidenceRequired], Stop (Exit 1))
    else ([Log INFO MsgDone], Stop (Exit 0)).
Proof.
  intros He Hc. unfold process, dispatch_and_finish, finish.
  rewrite He, Hc. simpl. by destruct (args.run_local a).
Qed.

(** X4: when the command builds no evidence and gets past its own branch
    ([status] that does not close tasks, [listjobs]), [--run_local] ends
    the run with exit code 1 on the error that evidence must be specified;
    without [--run_local] the run logs [Done.] and exits with 0. *)
Theorem run_local_requires_evidence cfg a tr i :
  intake cfg a = (tr, Next i) -> evidence_ i = None ->
  main cfg a
  = if args.run_local a
    then ((tr ++ [Log ERROR MsgEvidenceRequired])%list, Exit 1)
    else ((tr ++ [Log INFO MsgDone])%list, Exit 0).
Proof.
  intros Hi He. destruct (intake_command _ _ _ _ Hi) as [t Hc].
  rewrite He in Hc. pose proof (run_command_no_evidence _ _ _ _ _ Hc) as Hb.
  rewrite (main_after_intake _ _ _ _ Hi).
  rewrite (process_without_evidence _ _ _ He Hb).
  by destruct (args.run_local a).
Qed.

Lemma run_local_requires_evidence_witness :
  main (Sample.cfg true) (Sample.with_run_local "PlasoTask" (Sample.plain CmdListJobs))
  = ([SetLevel INFO; Log INFO (MsgVersion "20190819"); LoadConfig;
      NewClient (TurbiniaClient true); Log INFO MsgAvailableJobs;
      Call list_jobs; Log ERROR MsgEvidenceRequired],
     Exit 1).
Proof.
  exact (run_local_requires_evidence (Sample.cfg true)
           (Sample.with_run_local "PlasoTask" (Sample.plain CmdListJobs))
           _ _ eq_refl eq_refl).
Defined.

(** ** The three ways of handing evidence on *)

Lemma project_check_no_request cfg a ev b :
  always no_request (project_check cfg a ev b).
Proof. unfold project_check. always_auto. Qed.

Ltac norm_trace := repeat (progress (simpl; rewrite <- ?app_assoc)).

(** X5: when evidence is built, has passed the gate and the project check,
    and [--server] is set, the evidence is added to a new server, which is
    then started; no request is created at all, nothing is sent, printed
    or waited for, whatever [dump_json] and [wait] say, and the run ends
    with [Done.] and exit code 0 once the server returns. *)
Theorem server_embedded_path cfg a tr i e w :
  intake cfg a = (tr, Next i) -> evidence_ i = Some e ->
  args.server a = true ->
  compatibility_gate cfg a (Some e) = ret tt ->
  project_check cfg a (Some e) (is_cloud_disk i) = (w, Next tt) ->
  main cfg a
  = ((tr ++ w
      ++ [NewServer None; ServerAddEvidence e; ServerStart;
          Log INFO MsgDone])%list,
     Exit 0)
  /\ requests_of (fst (main cfg a)) = [].
Proof.
  intros Hi He Hs Hg Hp.
  destruct (intake_evidence _ _ _ _ _ Hi He) as (_ & _ & _ & Hrl & _ & _).
  assert (args.run_local a = false) as Hr.
  { destruct (args.run_local a); [|reflexivity].
    destruct (Hrl eq_refl) as [Hs' _]. congruence. }
  assert (main cfg a
          = ((tr ++ w
              ++ [NewServer None; ServerAddEvidence e; ServerStart;
                  Log INFO MsgDone])%list,
             Exit 0)) as Hmain.
  { rewrite <- He in Hg, Hp. rewrite (main_after_checks _ _ _ _ _ Hi Hg Hp).
    unfold dispatch_and_finish, dispatch, finish. rewrite He, Hs, Hr.
    norm_trace. reflexivity. }
  split; [exact Hmain|]. rewrite Hmain. simpl.
  rewrite !requests_of_app.
  pose proof (intake_no_request cfg a) as Hn. unfold always in Hn.
  rewrite Hi in Hn. simpl in Hn. rewrite (requests_of_none _ Hn).
  pose proof (project_check_no_request cfg a (Some e) (is_cloud_disk i)) as Hw.
  unfold always in Hw. rewrite Hp in Hw. simpl in Hw.
  rewrite (requests_of_none _ Hw). reflexivity.
Qed.

Lemma server_embedded_path_witness :
  args.server (More.with_server (Sample.plain Sample.rawdisk)) = true
  /\ main (Sample.cfg true) (More.with_server (Sample.plain Sample.rawdisk))
     = ([SetLevel INFO; Log INFO (MsgVersion "20190819"); LoadConfig;
         NewClient (TurbiniaClient false);
         NewEvidence (RawDisk "/data/img.dd" "/data/img.dd" 1 None);
         NewServer None;
         ServerAddEvidence (RawDisk "/data/img.dd" "/data/img.dd" 1 None);
         ServerStart; Log INFO MsgDone],
        Exit 0).
Proof.
  split; [reflexivity|].
  exact (proj1 (server_embedded_path (Sample.cfg true)
                  (More.with_server (Sample.plain Sample.rawdisk))
                  _ _ _ [] eq_refl eq_refl eq_refl eq_refl eq_refl)).
Defined.

(** X6: when evidence is built, has passed the gate and the project check,
    and none of [--server], [--dump_json] and [--run_local] is set, the
    request built from the evidence, the loaded patterns and the job
    filters is sent exactly as built; with [--wait] the client then waits
    for the request of that id with the given poll interval and the status
    of that request is printed; the run ends with [Done.] and exit code
    0. *)
Theorem remote_dispatch cfg a tr i e w :
  intake cfg a = (tr, Next i) -> evidence_ i = Some e ->
  args.server a = false -> args.dump_json a = false ->
  args.run_local a = false ->
  compatibility_gate cfg a (Some e) = ret tt ->
  project_check cfg a (Some e) (is_cloud_disk i) = (w, Next tt) ->
  let r := build_request cfg a e (filter_patterns i) in
  main cfg a
  = ((tr ++ w
      ++ [NewRequest
            (TurbiniaRequest cfg (args.request_id a)
               (config.getpass_getuser cfg));
          Log INFO (MsgCreatingRequest (request.request_id r)
                      (evidence.name e));
          Log INFO (MsgStatusHint (request.request_id r));
          Call (send_request r)]
      ++ (if args.wait a then wait_events cfg a r else [])
      ++ [Log INFO MsgDone])%list,
     Exit 0).
Proof.
  intros Hi He Hs Hd Hr Hg Hp r.
  destruct (intake_evidence _ _ _ _ _ Hi He) as (_ & _ & [c Hc] & _).
  rewrite <- He in Hg, Hp. rewrite (main_after_checks _ _ _ _ _ Hi Hg Hp).
  unfold dispatch_and_finish, dispatch, finish, wait_events.
  rewrite He, Hc, Hs, Hd, Hr.
  destruct (args.wait a); norm_trace; reflexivity.
Qed.

Lemma remote_dispatch_witness :
  args.run_local (Sample.with_wait (Sample.plain Sample.rawdisk)) = false
  /\ snd (main (Sample.cfg true) (Sample.with_wait (Sample.plain Sample.rawdisk)))
     = Exit 0
  /\ Exists (fun ev => is_send_request ev = true)
       (fst (main (Sample.cfg true)
               (Sample.with_wait (Sample.plain Sample.rawdisk)))).
Proof.
  split; [reflexivity|].
  rewrite (remote_dispatch (Sample.cfg true)
             (Sample.with_wait (Sample.plain Sample.rawdisk)) _ _ _ []
             eq_refl eq_refl eq_refl eq_refl eq_refl eq_refl eq_refl).
  split; [reflexivity|].
  vm_compute. do 8 apply Exists_cons_tl. by apply Exists_cons_hd.
Defined.



(** ** The outcome of every run *)

Ltac crush_process e :=
  unfold process, dispatch_and_finish, compatibility_gate, project_check,
    dispatch, finish, evidence_run_fails, call;
  destruct e; simpl;
  repeat match goal with
    | |- context [args.force_evidence ?a] => destruct (args.force_evidence a)
    | |- context [config.SHARED_FILESYSTEM ?c] =>
        destruct (config.SHARED_FILESYSTEM c)
    | |- context [String.eqb ?p (config.TURBINIA_PROJECT ?c)] =>
        destruct (String.eqb p (config.TURBINIA_PROJECT c))
    | |- context [args.dump_json ?a] => destruct (args.dump_json a)
    | |- context [args.wait ?a] => destruct (args.wait a)
    end;
  simpl.

Lemma process_evidence_outcome cfg a i e c :
  evidence_ i = Some e -> client i = Some c ->
  is_cloud_disk i = evidence.cloud_only e ->
  (args.run_local a = true -> args.server a = false) ->
  snd (process cfg a i)
  = Stop (if evidence_run_fails cfg a e then Exit 1 else Exit 0)
  /\ (length (List.filter is_submission (fst (process cfg a i))) <= 1)%nat.
Proof.
  intros He Hc Hcd Hrs.
  destruct i as [fp cl ev b]. simpl in *. subst ev cl b.
  destruct (args.run_local a) eqn:Hr.
  - pose proof (Hrs eq_refl) as Hs.
    crush_process e; rewrite ?Hr, ?Hs; simpl;
      repeat match goal with
        | |- context [args.dump_json ?a] => destruct (args.dump_json a)
        | |- context [args.wait ?a] => destruct (args.wait a)
        end; simpl; split; (reflexivity || lia).
  - destruct (args.server a) eqn:Hs;
      crush_process e; rewrite ?Hr, ?Hs; simpl;
      repeat match goal with
        | |- context [args.dump_json ?a] => destruct (args.dump_json a)
        | |- context [args.wait ?a] => destruct (args.wait a)
        end; simpl; split; (reflexivity || lia).
Qed.

Lemma intake_no_submission cfg a :
  always (fun ev => is_submission ev = false) (intake cfg a).
Proof.
  unfold intake, intake_with, set_log_level, check_job_filters,
    load_filter_patterns, make_client, check_run_local, run_command, status,
    construct.
  always_auto.
Qed.

Lemma intake_without_evidence cfg a tr i :
  intake cfg a = (tr, Next i) -> evidence_ i = None -> is_cloud_disk i = false.
Proof.
  intros Hi He. destruct (intake_command _ _ _ _ Hi) as [t Hc].
  rewrite He in Hc. by apply (run_command_no_evidence _ _ _ _ _ Hc).
Qed.

Lemma intake_evidence_process cfg a tr i e :
  intake cfg a = (tr, Next i) -> evidence_ i = Some e ->
  snd (process cfg a i)
  = Stop (if evidence_run_fails cfg a e then Exit 1 else Exit 0)
  /\ (length (List.filter is_submission (fst (process cfg a i))) <= 1)%nat.
Proof.
  intros Hi He.
  destruct (intake_evidence _ _ _ _ _ Hi He)
    as (Hcd & _ & [c Hc] & Hrl & _ & _).
  apply (process_evidence_outcome cfg a i e c He Hc Hcd).
  intros Hr. by destruct (Hrl Hr).
Qed.



(** X9: in any run the evidence is handed on at most once, and to at most
    one place: among adding it to an embedded server, sending the request,
    running a local task on it and printing the request as JSON, at most
    one event occurs in the whole run. *)
Theorem one_submission_per_run cfg a :
  (length (List.filter is_submission (fst (main cfg a))) <= 1)%nat.
Proof.
  pose proof (intake_no_submission cfg a) as Hn. unfold always in Hn.
  assert (forall t, Forall (fun ev => is_submission ev = false) t ->
                    List.filter is_submission t = []) as Hnone.
  { induction 1 as [|ev t Hev _ IH]; [reflexivity|]. simpl.
    by rewrite Hev. }
  destruct (intake cfg a) as [tr [i|o]] eqn:Hi; simpl in Hn.
  - rewrite (main_after_intake _ _ _ _ Hi).
    replace (fst (run _)) with (tr ++ fst (process cfg a i))%list
      by (by destruct (snd (process cfg a i)) as [[]|]).
    rewrite List.filter_app, (Hnone _ Hn). simpl.
    destruct (evidence_ i) as [e|] eqn:He.
    + by destruct (intake_evidence_process _ _ _ _ _ Hi He).
    + rewrite (process_without_evidence _ _ _ He
                 (intake_without_evidence _ _ _ _ Hi He)).
      destruct (args.run_local a); simpl; lia.
  - rewrite (main_intake_stop _ _ _ _ Hi). simpl. rewrite (Hnone _ Hn).
    simpl. lia.
Qed.






(** ** More on the status command *)

Lemma status_prefix cfg a close days force prio full task_id user w fp tc :
  args.command a = CmdStatus close days force prio full task_id user ->
  check_job_filters a = ret tt ->
  load_filter_patterns cfg a = (w, Next fp) ->
  check_run_local a = (tc, Next tt) ->
  exists l cl,
    set_log_level cfg a
    = ([SetLevel l; Log INFO (MsgVersion (config.version cfg))], Next tt)
    /\ make_client cfg a = ([LoadConfig; NewClient cl], Next (Some cl))
    /\ main_body cfg a
       = (([SetLevel l; Log INFO (MsgVersion (config.version cfg))] ++ w
           ++ [LoadConfig; NewClient cl] ++ tc, Next tt) ;;
          status cfg a (Some cl) close days prio full task_id user ;;
          process cfg a
            {| filter_patterns := fp; client := Some cl; evidence_ := None;
               is_cloud_disk := false |})%list.
Proof.
  intros Hcmd Hcheck Hload Hcrl.
  destruct (set_log_level_next cfg a) as [l Hl].
  destruct (make_client_status cfg a _ _ _ _ _ _ _ Hcmd) as [cl Hcl].
  exists l, cl. split; [exact Hl|]. split; [exact Hcl|].
  unfold main_body, intake, intake_with.
  rewrite Hl, Hcheck, Hload, Hcl, Hcrl. unfold run_command. rewrite Hcmd.
  simpl.
  destruct (status cfg a (Some cl) close days prio full task_id user)
    as [ts [[]|o]]; simpl.
  - destruct (process _ _ _) as [tp r]. norm_trace. reflexivity.
  - norm_trace. reflexivity.
Qed.

(** X11: a [status] command with [--close_tasks] that gets past the checks
    before it never shows the task status and never waits: when a user, a
    request id or a task id is given it calls [close_tasks] once with
    them and with the invoking user as requester, prints what that
    returns and exits with 0; when none is given it exits with 1. The
    command's own [--force] plays no part in this. *)
Theorem status_close_tasks cfg a days force prio full task_id user w fp tc :
  args.command a = CmdStatus true days force prio full task_id user ->
  check_job_filters a = ret tt ->
  load_filter_patterns cfg a = (w, Next fp) ->
  check_run_local a = (tc, Next tt) ->
  let pre := (fst (set_log_level cfg a) ++ w ++ fst (make_client cfg a)
              ++ tc)%list in
  let c := close_tasks (config.INSTANCE_ID cfg) (config.TURBINIA_PROJECT cfg)
             (config.TURBINIA_REGION cfg) (args.request_id a) task_id user
             (config.getpass_getuser cfg) in
  main cfg a
  = if (Py.truthy user || Py.truthy (args.request_id a)
        || Py.truthy task_id)%bool
    then ((pre ++ [Call c; Print (ResultOf c)])%list, Exit 0)
    else ((pre ++ [Log INFO MsgCloseTasksNeedsSelector])%list, Exit 1).
Proof.
  intros Hcmd Hcheck Hload Hcrl pre c.
  destruct (status_prefix _ _ _ _ _ _ _ _ _ _ _ _ Hcmd Hcheck Hload Hcrl)
    as (l & cl & Hl & Hcl & Hbody).
  unfold main, pre. rewrite Hbody, Hl, Hcl. unfold status.
  destruct (_ || _ || _)%bool; norm_trace; reflexivity.
Qed.

Lemma status_close_tasks_witness :
  main (Sample.cfg true) (Sample.plain More.status_close_user)
  = (let c := close_tasks "turbinia-main" "proj-b" "us-central1" None None
                (Some "analyst") "analyst" in
     [SetLevel INFO; Log INFO (MsgVersion "20190819"); LoadConfig;
      NewClient (TurbiniaClient false); Call c; Print (ResultOf c)],
     Exit 0).
Proof.
  exact (status_close_tasks (Sample.cfg true)
           (Sample.plain More.status_close_user) 0 false 20 false None
           (Some "analyst") [] None [] eq_refl eq_refl eq_refl eq_refl).
Defined.

(** X12: a [status] command without [--close_tasks], with [--wait] and a
    request id, that gets past the checks before it and does not set
    [--run_local], first waits for that request, with the given user and
    poll interval, and only then reads and prints the task status; it ends
    with [Done.] and exit code 0. *)
Theorem status_wait_for_request cfg a days force prio full task_id user w fp :
  args.command a = CmdStatus false days force prio full task_id user ->
  args.wait a = true -> Py.truthy (args.request_id a) = true ->
  check_job_filters a = ret tt ->
  load_filter_patterns cfg a = (w, Next fp) ->
  args.run_local a = false ->
  let c := format_task_status (config.INSTANCE_ID cfg)
             (config.TURBINIA_PROJECT cfg) (config.TURBINIA_REGION cfg)
             (Some days) task_id (args.request_id a) user (args.all_fields a)
             (Some full) (Some prio) in
  main cfg a
  = ((fst (set_log_level cfg a) ++ w ++ fst (make_client cfg a)
      ++ fst (check_run_local a)
      ++ [Call (wait_for_request (config.INSTANCE_ID cfg)
                  (config.TURBINIA_PROJECT cfg) (config.TURBINIA_REGION cfg)
                  (args.request_id a) user (args.poll_interval a));
          Call c; Print (ResultOf c); Log INFO MsgDone])%list,
     Exit 0).
Proof.
  intros Hcmd Hwait Hrid Hcheck Hload Hrl c.
  destruct (check_run_local_off a Hrl) as [tc Hcrl].
  destruct (status_prefix _ _ _ _ _ _ _ _ _ _ _ _ Hcmd Hcheck Hload Hcrl)
    as (l & cl & Hl & Hcl & Hbody).
  unfold main. rewrite Hbody, Hl, Hcl, Hcrl. unfold status.
  rewrite Hwait, Hrid.
  unfold process, dispatch_and_finish, finish. simpl. rewrite Hrl.
  norm_trace. reflexivity.
Qed.

Lemma status_wait_for_request_witness :
  Py.truthy
    (args.request_id
       (More.with_request_id "0f1e2d3c"
          (Sample.with_wait (Sample.plain Sample.status_plain)))) = true
  /\ snd (main (Sample.cfg true)
            (More.with_request_id "0f1e2d3c"
               (Sample.with_wait (Sample.plain Sample.status_plain))))
     = Exit 0.
Proof.
  split; [reflexivity|].
  rewrite (status_wait_for_request (Sample.cfg true)
             (More.with_request_id "0f1e2d3c"
                (Sample.with_wait (Sample.plain Sample.status_plain)))
             0 false 20 false None None [] None
             eq_refl eq_refl eq_refl eq_refl eq_refl eq_refl).
  reflexivity.
Defined.

(** ** More on [csv_list], names and patterns *)

(** X13: [csv_list] returns one piece more than its argument has commas;
    a string without commas, such as a single job or module name, comes
    back as the one-element list holding it. *)
Theorem csv_list_length (s : string) :
  length (csv_list s) = S (count_char comma s)
  /\ (Py.contains_char comma s = false -> csv_list s = [s]).
Proof.
  split; [|apply split_piece].
  unfold csv_list. induction s as [|c r IH]; [reflexivity|].
  simpl. destruct (Ascii.eqb c comma).
  - simpl. by rewrite IH.
  - pose proof (split_not_nil comma r) as Hne.
    destruct (Py.split comma r); [congruence|]. exact IH.
Qed.

Lemma csv_list_length_witness :
  Py.contains_char comma "StringsJob" = false
  /\ csv_list "StringsJob" = ["StringsJob"].
Proof.
  split; [reflexivity|].
  exact (proj2 (csv_list_length "StringsJob") eq_refl).
Defined.

(** X14: a display name that is given (and not empty) becomes the name of
    the evidence unchanged, for every evidence command; the path the
    evidence stores is the normalized one all the same. *)
Theorem supplied_name_kept cfg a tr i e n :
  intake cfg a = (tr, Next i) -> evidence_ i = Some e ->
  cmd_name (args.command a) = Some n -> n <> EmptyString ->
  evidence.name e = n
  /\ (forall lp,
         cmd_local_path (args.command a) = Some lp ->
         evidence.local_path e
         = Some (PosixPath.abspath (config.os_getcwd cfg) lp)).
Proof.
  intros Hi He Hn Hne. destruct n as [|c n]; [congruence|]. clear Hne.
  destruct (intake_command _ _ _ _ Hi) as [t Hc].
  rewrite He in Hc. unfold run_command, construct, abspath in Hc.
  destruct (args.command a); simpl in Hn;
    try discriminate; rewrite Hn in Hc;
    simpl in Hc;
    repeat match type of Hc with
      | context [if ?c then _ else _] => destruct c; simpl in Hc
      end;
    try discriminate;
    injection Hc as _ <- _; (split; [reflexivity|]);
    simpl; intros lp' [=]; congruence.
Qed.

Lemma supplied_name_kept_witness :
  exists tr i e,
    intake (Sample.cfg true) (Sample.plain More.rawdisk_named) = (tr, Next i)
    /\ evidence_ i = Some e /\ evidence.name e = "case42".
Proof.
  eexists _, _, _. split; [vm_compute; reflexivity|].
  split; [reflexivity|].
  exact (proj1 (supplied_name_kept (Sample.cfg true)
                  (Sample.plain More.rawdisk_named) _ _ _ "case42"
                  eq_refl eq_refl eq_refl ltac:(discriminate))).
Defined.

(** X15: when the named patterns file exists and can be read, its lines
    are what every request that carries evidence has under
    [filter_patterns] in its recipe -- in what is sent, printed and handed
    to a local task alike; a file without lines leaves the recipe without
    that entry. Loading the file logs nothing. *)
Theorem filter_patterns_reach_request cfg a file lines :
  args.filter_patterns_file a = Some file -> file <> EmptyString ->
  config.os_path_exists cfg file = true ->
  config.open_read_splitlines cfg file = Lines lines ->
  load_filter_patterns cfg a = ([], Next (Some lines))
  /\ Forall
       (fun r =>
          request.evidence r <> [] ->
          request.recipe r !! "filter_patterns"
          = (if Py.nonempty lines then Some lines else None))
       (requests_of (fst (main cfg a))).
Proof.
  intros Hfile Hne Hex Hread. destruct file as [|c s]; [congruence|].
  assert (load_filter_patterns cfg a = ([], Next (Some lines))) as Hload.
  { unfold load_filter_patterns. by rewrite Hfile, Hex, Hread. }
  split; [exact Hload|]. apply main_requests.
  - intros H. by destruct H.
  - intros tr i e Hi _.
    destruct (intake_inv _ _ _ _ Hi) as (? & ? & ? & ? & ? & _ & _ & Hc & _).
    rewrite Hload in Hc. injection Hc as _ <-.
    destruct (build_request_recipe cfg a e (Some lines)) as [-> _].
    by destruct lines.
Qed.

Lemma filter_patterns_reach_request_witness :
  config.os_path_exists (More.cfg_readable ["password"; "secret"])
    "/etc/patterns.txt" = true
  /\ load_filter_patterns (More.cfg_readable ["password"; "secret"])
       (Sample.with_filters (Some "/etc/patterns.txt") [] []
          (Sample.plain Sample.rawdisk))
     = ([], Next (Some ["password"; "secret"])).
Proof.
  split; [reflexivity|].
  exact (proj1 (filter_patterns_reach_request
                  (More.cfg_readable ["password"; "secret"])
                  (Sample.with_filters (Some "/etc/patterns.txt") [] []
                     (Sample.plain Sample.rawdisk))
                  "/etc/patterns.txt" ["password"; "secret"]
                  eq_refl ltac:(discriminate) eq_refl eq_refl)).
Defined.

(** ** Worker and server commands *)

(** X16: the [psqworker], [celeryworker] and [server] commands, once past
    the checks and without [--run_local], start their worker or server and,
    when that returns, end with [Done.] and exit code 0. No client exists
    for [psqworker] and [server]; the server is given both job filter
    lists; [--single_threaded], [--force_evidence], [--dump_json],
    [--wait] and [--server] change nothing. *)
Theorem role_commands cfg a w fp :
  (exists st, args.command a = CmdPsqWorker st)
  \/ args.command a = CmdCeleryWorker \/ args.command a = CmdServer ->
  check_job_filters a = ret tt ->
  load_filter_patterns cfg a = (w, Next fp) ->
  args.run_local a = false ->
  main cfg a
  = ((fst (set_log_level cfg a) ++ w ++ fst (make_client cfg a)
      ++ fst (check_run_local a) ++ role_events a
      ++ [Log INFO MsgDone])%list,
     Exit 0)
  /\ (args.command a <> CmdCeleryWorker ->
      make_client cfg a = ([LoadConfig], Next None)).
Proof.
  intros Hcmd Hcheck Hload Hrl.
  destruct (set_log_level_next cfg a) as [l Hl].
  destruct (check_run_local_off a Hrl) as [tc Hcrl].
  unfold main, main_body, intake, intake_with, role_events.
  rewrite Hl, Hcheck, Hload, Hcrl. unfold make_client, run_command.
  destruct Hcmd as [[st ->] | [-> | ->]];
    unfold process, dispatch_and_finish, finish; simpl; rewrite Hrl;
    (split; [norm_trace; reflexivity | done]).
Qed.

Lemma role_commands_witness :
  main (Sample.cfg true)
    (Sample.with_filters None [] ["GrepJob"] (Sample.plain CmdServer))
  = ([SetLevel INFO; Log INFO (MsgVersion "20190819"); LoadConfig;
      NewServer (Some (["GrepJob"], [])); ServerStart; Log INFO MsgDone],
     Exit 0).
Proof.
  exact (proj1 (role_commands (Sample.cfg true)
                  (Sample.with_filters None [] ["GrepJob"]
                     (Sample.plain CmdServer)) [] None
                  (or_intror (or_intror eq_refl)) eq_refl eq_refl eq_refl)).
Defined.
